(** * Warning & Recommendation Engine (warningEngine.js)

    A shallow embedding of the escalation engine of the QPerform server:
    the agent ladder (Cases A, B, C and the "First" fallback), the
    leadership path (Cases D and E), the read of active warnings and the
    recording of a new warning.

    The engine talks to PostgreSQL through [pool.query].  The database is
    modelled as a record of tables (lists of rows); every SQL text of the
    engine is translated to a function on those lists, with SQL's
    three-valued logic for NULL.  JavaScript code that awaits a query lives
    in the monad [Pg]: state (the database behind the pool) over errors (a
    rejected query).  What the server does to a value on its way into a
    column (input of a text, of a date, the constraints of the original
    warnings table) is not in the source and is a member of that world. *)

From Stdlib Require Import String Ascii ZArith List Bool Lia Permutation.
From Stdlib Require Import DecimalString.
From ExtLib Require Import Structures.Monad Structures.MonadState Structures.MonadExc.
From ExtLib Require Import Data.Monads.StateMonad Data.Monads.EitherMonad.
Import ListNotations.
Import MonadNotation.
Local Open Scope monad_scope.
Local Open Scope string_scope.
Local Open Scope Z_scope.

#[local] Existing Instance Monad_stateT.

(** ** SQL values and three-valued logic *)

(** A nullable column is an [option]; [None] is SQL NULL (and the
    JavaScript [null] the driver hands back for it).  A condition evaluates
    to [Some true], [Some false] or [None] (unknown); WHERE keeps a row
    only when its condition is [Some true]. *)
Module Sql.

Definition tv := option bool.

Definition and3 (a b : tv) : tv :=
  match a, b with
  | Some false, _ | _, Some false => Some false
  | Some true, Some true => Some true
  | _, _ => None
  end.

Definition or3 (a b : tv) : tv :=
  match a, b with
  | Some true, _ | _, Some true => Some true
  | Some false, Some false => Some false
  | _, _ => None
  end.

Definition is_null {A} (a : option A) : tv :=
  Some (match a with None => true | Some _ => false end).

Definition cmp {A} (op : A -> A -> bool) (a b : option A) : tv :=
  match a, b with
  | Some x, Some y => Some (op x y)
  | _, _ => None
  end.

Definition eq_text := cmp String.eqb.
Definition eq_bool := cmp Bool.eqb.
Definition ge_date := cmp Z.geb.
Definition le_date := cmp Z.leb.

(** [d - INTERVAL 'n days'] and [d + INTERVAL 'n days'] on a calendar date. *)
Definition minus_days (d : option Z) (n : Z) : option Z := option_map (fun x => x - n) d.
Definition plus_days (d : option Z) (n : Z) : option Z := option_map (fun x => x + n) d.

Definition holds (c : tv) : bool :=
  match c with Some true => true | _ => false end.

(** SELECT ... WHERE c *)
Definition where_ {R} (c : R -> tv) (rows : list R) : list R :=
  filter (fun r => holds (c r)) rows.

(** SELECT COUNT( * ) ... WHERE c *)
Definition count_where {R} (c : R -> tv) (rows : list R) : Z :=
  Z.of_nat (length (where_ c rows)).

(** ORDER BY key DESC.  PostgreSQL puts NULLs first in descending order;
    the order among equal keys is left to the server, here rows with equal
    keys keep their table order. *)
Definition desc_le (a b : option Z) : bool :=
  match a, b with
  | None, _ => true
  | Some _, None => false
  | Some x, Some y => y <=? x
  end.

Fixpoint insert_desc {R} (key : R -> option Z) (r : R) (rows : list R) : list R :=
  match rows with
  | [] => [r]
  | r' :: rest =>
      if desc_le (key r) (key r') then r :: rows
      else r' :: insert_desc key r rest
  end.

Definition order_by_desc {R} (key : R -> option Z) (rows : list R) : list R :=
  fold_right (insert_desc key) [] rows.

End Sql.

(** ** Tables *)

(** Calendar dates (DATE columns, CURRENT_DATE) are day numbers counted from
    the epoch; instants of the JavaScript clock are milliseconds from the
    epoch.  Server and database share one clock and one time zone (UTC). *)
Definition MS_PER_DAY : Z := 24 * 60 * 60 * 1000.

Definition date_of_ms (t : Z) : Z := t / MS_PER_DAY.

(** consolidations.warnings, with the columns the engine reads or writes. *)
Record WarningRow := mkWarningRow {
  id : Z;
  agent_email : option string;
  action_log_id : option Z;
  warning_level : option Z;
  issue_date : option Z;
  expiration_date : option Z;
  status : option string;
  warning_type : option string;
  warning_subtype : option string;
  metric_type : option string;
  issued_by : option string;
  notes : option string;
  week_start_date : option Z;
  week_end_date : option Z;
  client : option string;
  category : option string
}.

(** consolidations.action_log *)
Record ActionLogRow := mkActionLogRow {
  al_agent_email : option string;
  action_date : option Z
}.

(** consolidations.leadership_reports *)
Record LeadershipReportRow := mkLeadershipReportRow {
  report_id : Z;
  leader_email : option string;
  issued_date : option Z;
  expires_date : option Z;
  is_active : option bool
}.

(** One row of the weekly performance data handed to [evaluateCaseD]. *)
Record WeekRow := mkWeekRow {
  start_date : option Z;
  flag_qa : option string;
  flag_prod : option string
}.

(** The columns of the warnings table that were there before the schema of
    this repository extended it; their declaration is not in the source. *)
Module Legacy.
Record t := mk {
  agent_email : option string;
  action_log_id : option Z;
  warning_level : option Z;
  issue_date : option Z;
  expiration_date : option Z;
  status : option string
}.
End Legacy.

(** What the server does to a parameter on its way into a column: the
    assignment of a text to VARCHAR(n) and to TEXT, the input of a DATE, and
    the types and constraints of the original columns of the warnings
    table.  Each either yields the value as stored or rejects the
    statement. *)
Module Server.
Record t := mk {
  varchar_in : nat -> string -> sum string string;
  text_in : string -> sum string string;
  date_in : string -> sum string Z;
  legacy_in : Legacy.t -> sum string Legacy.t
}.
End Server.

(** The world behind [pool]: the clock, the server's input routines, the
    tables, the serial of [warnings.id], and whether the server currently
    rejects queries. *)
Record Database := mkDatabase {
  clock_ms : Z;
  fault : option string;
  server : Server.t;
  tbl_warnings : list WarningRow;
  tbl_action_log : list ActionLogRow;
  tbl_leadership_reports : list LeadershipReportRow;
  warnings_id_seq : Z
}.

(** CURRENT_DATE *)
Definition CURRENT_DATE (db : Database) : Z := date_of_ms (clock_ms db).

(** ** The monad of code that awaits [pool.query] *)

Definition Pg := stateT Database (sum string).

(** A read-only query: rejected when the server is at fault, otherwise the
    rows the SELECT yields on the current tables. *)
Definition pool_query {A} (select : Database -> A) : Pg A :=
  db <- get ;;
  match fault db with
  | Some e => raise e
  | None => ret (select db)
  end.

(** An INSERT ... RETURNING: the new tables and the returned value. *)
Definition pool_insert {A} (insert : Database -> sum string (Database * A)) : Pg A :=
  db <- get ;;
  match fault db with
  | Some e => raise e
  | None =>
      match insert db with
      | inl e => raise e
      | inr (db', a) => put db' ;; ret a
      end
  end.

(** A read-only query whose text the server may refuse to type: the
    statement is either the error of its analysis or the rows it yields. *)
Definition pool_parse_query {A} (statement : sum string (Database -> A)) : Pg A :=
  db <- get ;;
  match fault db with
  | Some e => raise e
  | None =>
      match statement with
      | inl e => raise e
      | inr select => ret (select db)
      end
  end.

Definition run {A} (c : Pg A) (db : Database) : sum string (A * Database) :=
  runStateT c db.

(** ** Configuration *)

(** What a property read on a JavaScript object literal yields: one of its
    own numeric or null members, [undefined] for an unknown key, or a member
    inherited from [Object.prototype] (a function or an object). *)
Inductive JsMember :=
| JNumber (n : Z)
| JNull
| JUndefined
| JInherited.

Definition object_prototype_keys : list string :=
  ["constructor"; "toString"; "toLocaleString"; "valueOf"; "hasOwnProperty";
   "isPrototypeOf"; "propertyIsEnumerable"; "__proto__"; "__defineGetter__";
   "__defineSetter__"; "__lookupGetter__"; "__lookupSetter__"].

(** [WARNING_EXPIRATION[key]] *)
Definition WARNING_EXPIRATION (key : string) : JsMember :=
  if (key =? "Verbal")%string then JNumber 90
  else if (key =? "Written")%string then JNumber 180
  else if (key =? "Coaching")%string then JNull
  else if existsb (String.eqb key) object_prototype_keys then JInherited
  else JUndefined.

Definition truthy (m : JsMember) : bool :=
  match m with
  | JNumber n => negb (n =? 0)
  | JNull | JUndefined => false
  | JInherited => true
  end.

(** ** Results of the evaluators *)

(** The object an evaluator returns: either [{ applies: false }] or the full
    payload.  [generateRecommendation] then sets the four metadata members
    on it.  A member that is absent, [undefined] or [null] is [None] (the
    three print alike once the result is sent as JSON). *)
Record CaseResult := mkCaseResult {
  applies : bool;
  case : option string;
  recommendation : option string;
  priority : option string;
  details : option string;
  leaderEmail : option string;
  agentEmail : option string;
  metricType : option string;
  weekStartDate : option string;
  weekEndDate : option string
}.

(** [{ applies: false }] *)
Definition not_applicable : CaseResult :=
  mkCaseResult false None None None None None None None None None.

(** [{ case, applies: true, recommendation, priority, details }] *)
Definition payload (c r p d : string) : CaseResult :=
  mkCaseResult true (Some c) (Some r) (Some p) (Some d) None None None None None.

(** The four assignments [result.agentEmail = agentEmail; ...]. *)
Definition with_metadata (r : CaseResult)
  (agent metric weekStart weekEnd : option string) : CaseResult :=
  mkCaseResult (applies r) (case r) (recommendation r) (priority r) (details r)
    (leaderEmail r) agent metric weekStart weekEnd.

(** ** Reading the active warnings *)

(** The WHERE clause of [getActiveWarnings]. *)
Definition active_warning_cond (today : Z) (agent metric : option string)
  (w : WarningRow) : Sql.tv :=
  Sql.and3 (Sql.and3 (Sql.and3
    (Sql.eq_text (agent_email w) agent)
    (Sql.eq_text (metric_type w) metric))
    (Sql.eq_text (status w) (Some "Active")))
    (Sql.or3 (Sql.is_null (expiration_date w))
             (Sql.ge_date (expiration_date w) (Some today))).

Definition select_active_warnings (agent metric : option string)
  (db : Database) : list WarningRow :=
  Sql.order_by_desc issue_date
    (Sql.where_ (active_warning_cond (CURRENT_DATE db) agent metric)
       (tbl_warnings db)).

Definition getActiveWarnings (agentEmail metricType : option string)
  : Pg (list WarningRow) :=
  pool_query (select_active_warnings agentEmail metricType).

(** [w.warning_type === warningType] *)
Definition strict_eq (v : option string) (s : string) : bool :=
  match v with
  | Some x => (x =? s)%string
  | None => false
  end.

Definition countWarningsByType (warnings : list WarningRow) (warningType : string) : nat :=
  length (filter (fun w => strict_eq (warning_type w) warningType) warnings).

(** ** The agent ladder *)

Definition evaluateCaseA (warnings : list WarningRow) : CaseResult :=
  let verbalWarnings := countWarningsByType warnings "Verbal" in
  if Nat.eqb verbalWarnings 1 then
    payload "A" "Second Verbal Warning + Coaching/Reinforcement" "Medium"
      "Agent has 1 verbal warning and is underperforming again. Issue second verbal warning and provide coaching."
  else not_applicable.

Definition evaluateCaseB (warnings : list WarningRow) : CaseResult :=
  let verbalWarnings := countWarningsByType warnings "Verbal" in
  if Nat.leb 2 verbalWarnings then
    payload "B" "Written Warning - Substandard Work" "High"
      "Agent has 2 verbal warnings and is still underperforming. Issue formal written warning for substandard work."
  else not_applicable.

Definition evaluateCaseC (warnings : list WarningRow) : CaseResult :=
  let writtenWarnings := countWarningsByType warnings "Written" in
  if Nat.leb 2 writtenWarnings then
    payload "C" "Prepare Employee Offboarding" "Critical"
      "Agent has 2 written warnings and continues to underperform. Agent is at risk. Prepare for offboarding process."
  else not_applicable.

(** The object literal returned when no case applied. *)
Definition first_result (agent metric weekStart weekEnd : option string) : CaseResult :=
  mkCaseResult true (Some "First") (Some "First Verbal Warning") (Some "Low")
    (Some "Agent is underperforming for the first time. Issue first verbal warning.")
    None agent metric weekStart weekEnd.

Definition generateRecommendation
  (agentEmail metricType weekStartDate weekEndDate : option string) : Pg CaseResult :=
  catch
    (warnings <- getActiveWarnings agentEmail metricType ;;
     let result := evaluateCaseC warnings in
     if applies result then
       ret (with_metadata result agentEmail metricType weekStartDate weekEndDate)
     else
     let result := evaluateCaseB warnings in
     if applies result then
       ret (with_metadata result agentEmail metricType weekStartDate weekEndDate)
     else
     let result := evaluateCaseA warnings in
     if applies result then
       ret (with_metadata result agentEmail metricType weekStartDate weekEndDate)
     else
       ret (first_result agentEmail metricType weekStartDate weekEndDate))
    (fun error => raise error).

(** ** The leadership path *)

(** Types the server gives to the operands of a statement.  The driver
    sends every parameter as a text without a type; the server types it
    when it resolves the operator the parameter stands under. *)
Module SqlType.

Inductive t := date | timestamp | interval | unknown.

(** [e - INTERVAL '7 days'] and [e + INTERVAL '7 days']: an operand of
    unknown type is taken to have the type of the other operand, and
    interval - interval, interval + interval exist; a date or a timestamp
    shifted by an interval is a timestamp. *)
Definition shifted (e : t) : t :=
  match e with
  | unknown | interval => interval
  | date | timestamp => timestamp
  end.

(** Whether [column >= e] and [column <= e] have an operator: dates and
    timestamps compare with one another, intervals with intervals, and an
    operand of unknown type is read as the column's type. *)
Definition compares (column e : t) : bool :=
  match column, e with
  | (date | timestamp), (date | timestamp | unknown) => true
  | interval, (interval | unknown) => true
  | _, _ => false
  end.

Definition name (x : t) : string :=
  match x with
  | date => "date"
  | timestamp => "timestamp without time zone"
  | interval => "interval"
  | unknown => "unknown"
  end.

End SqlType.

(** [issue_date] holds a calendar date, like the date columns the schema
    declares (DATE). *)
Definition issue_date_type : SqlType.t := SqlType.date.

(** The two COUNT sub-selects of [checkLeaderAction], added up: the rows
    the statement counts once its operands are typed as dates. *)
Definition in_window_cond (weekStartDate d : option Z) : Sql.tv :=
  Sql.and3 (Sql.ge_date d (Sql.minus_days weekStartDate 7))
           (Sql.le_date d (Sql.plus_days weekStartDate 7)).

Definition select_action_count (agent : option string) (weekStartDate : option Z)
  (db : Database) : Z :=
  Sql.count_where
    (fun w => Sql.and3 (Sql.eq_text (agent_email w) agent)
                       (in_window_cond weekStartDate (issue_date w)))
    (tbl_warnings db)
  +
  Sql.count_where
    (fun a => Sql.and3 (Sql.eq_text (al_agent_email a) agent)
                       (in_window_cond weekStartDate (action_date a)))
    (tbl_action_log db).

(** The statement of [checkLeaderAction] as the server analyses it.  [$2]
    comes without a type, so [$2 - INTERVAL '7 days'] is typed interval -
    interval, and the first comparison, [issue_date >= ...], is looked up
    for a date column and an interval. *)
Definition action_count_statement (agent : option string) (weekStartDate : option Z)
  : sum string (Database -> Z) :=
  let bound := SqlType.shifted SqlType.unknown in
  if SqlType.compares issue_date_type bound
  then inr (select_action_count agent weekStartDate)
  else inl ("operator does not exist: " ++ SqlType.name issue_date_type
            ++ " >= " ++ SqlType.name bound).

Definition checkLeaderAction (agentEmail : option string) (weekStartDate : option Z)
  : Pg bool :=
  action_count <- pool_parse_query (action_count_statement agentEmail weekStartDate) ;;
  ret (0 <? action_count).

(** The filter callback of [evaluateCaseD]. *)
Definition underperforming (w : WeekRow) : bool :=
  strict_eq (flag_qa w) "Low" || strict_eq (flag_qa w) "Critical" ||
  strict_eq (flag_prod w) "Low" || strict_eq (flag_prod w) "Critical".

(** [`${n}`] for an array length. *)
Definition show_nat (n : nat) : string := NilEmpty.string_of_uint (Nat.to_uint n).

Definition evaluateCaseD (agentEmail leaderEmail : option string)
  (weeksData : list WeekRow) : Pg CaseResult :=
  let underperformingWeeks := filter underperforming weeksData in
  if Nat.leb (length underperformingWeeks) 2 then ret not_applicable
  else
    match underperformingWeeks with
    | [] => raise "TypeError: Cannot read properties of undefined (reading 'start_date')"
    | first :: _ =>
        hasActions <- checkLeaderAction agentEmail (start_date first) ;;
        if negb hasActions then
          ret (mkCaseResult true (Some "D")
                 (Some "Leadership Behavior Report + Verbal Warning for Leader")
                 (Some "High")
                 (Some ("Agent has been underperforming for "
                        ++ show_nat (length underperformingWeeks)
                        ++ " weeks with no documented actions from direct leader. Issue leadership behavior report."))
                 leaderEmail None None None None)
        else ret not_applicable
    end.

(** The WHERE clause of [evaluateCaseE]. *)
Definition active_report_cond (today : Z) (leader : option string)
  (r : LeadershipReportRow) : Sql.tv :=
  Sql.and3 (Sql.and3
    (Sql.eq_text (leader_email r) leader)
    (Sql.eq_bool (is_active r) (Some true)))
    (Sql.or3 (Sql.is_null (expires_date r))
             (Sql.ge_date (expires_date r) (Some today))).

Definition select_active_reports (leader : option string) (db : Database)
  : list LeadershipReportRow :=
  Sql.order_by_desc issued_date
    (Sql.where_ (active_report_cond (CURRENT_DATE db) leader)
       (tbl_leadership_reports db)).

Definition evaluateCaseE (leaderEmail : option string) : Pg CaseResult :=
  reports <- pool_query (select_active_reports leaderEmail) ;;
  if Nat.leb 1 (length reports) then
    ret (mkCaseResult true (Some "E")
           (Some "Second Leadership Behavior Report + Written Warning for Leader")
           (Some "Critical")
           (Some "Leader has failed to follow procedures again within warning period. Issue written warning.")
           leaderEmail None None None None)
  else ret not_applicable.

(** ** Recording a warning *)

(** The request body handed to [recordWarning]; a member that is missing is
    [None].  [issuedDate] is the instant the supplied date denotes. *)
Module WarningData.
Record t := mk {
  agentEmail : option string;
  actionLogId : option Z;
  warningType : option string;
  issuedDate : option Z;
  warningSubtype : option string;
  metricType : option string;
  issuedBy : option string;
  notes : option string;
  weekStartDate : option string;
  weekEndDate : option string;
  client : option string;
  category : option string
}.
End WarningData.

(** A JavaScript [Date]: an instant within the representable range, or the
    Invalid Date ([new Date(NaN)], or an instant out of range). *)
Inductive JsDate :=
| Instant (ms : Z)
| InvalidDate.

Definition MAX_TIME_MS : Z := 8640000000000000.

(** [new Date(ms)] *)
Definition new_Date (ms : Z) : JsDate :=
  if Z.abs ms <=? MAX_TIME_MS then Instant ms else InvalidDate.

(** [warningLevel], kept for backwards compatibility. *)
Definition warningLevel_of (warningType : option string) : Z :=
  if strict_eq warningType "Written" then 2
  else if strict_eq warningType "Coaching" then 0
  else 1.

(** [expiresDate]: the conditional expression on [warningData.warningType]
    and [WARNING_EXPIRATION], evaluated when [Date.now()] is [now]. *)
Definition expiresDate_of (now : Z) (warningType : option string) : option JsDate :=
  match warningType with
  | None => None
  | Some "" => None
  | Some k =>
      if truthy (WARNING_EXPIRATION k) then
        match WARNING_EXPIRATION k with
        | JNumber n => Some (new_Date (now + n * 24 * 60 * 60 * 1000))
        | _ => Some InvalidDate
        end
      else None
  end.

(** The dates a DATE column holds: from Julian day 0 (24 November 4714 BC)
    up to, not including, 1 January 5874898, as day numbers from the
    epoch. *)
Definition PG_DATE_MIN : Z := 0 - 2440588.
Definition PG_DATE_END : Z := 2147483494 - 2440588.

(** A date parameter as a DATE column stores it; an Invalid Date has no
    SQL form, and a date outside the range of the type is refused. *)
Definition sql_date (d : JsDate) : sum string Z :=
  match d with
  | Instant ms =>
      let day := date_of_ms ms in
      if (PG_DATE_MIN <=? day) && (day <? PG_DATE_END) then inr day
      else inl "date out of range"
  | InvalidDate => inl "invalid input syntax for type date"
  end.

(** A nullable parameter: NULL goes in as NULL, a value through the input
    routine of the column. *)
Definition on_value {A B} (f : A -> sum string B) (v : option A)
  : sum string (option B) :=
  match v with
  | None => inr None
  | Some x => match f x with inl e => inl e | inr y => inr (Some y) end
  end.

(** The parameters [$1] to [$6] of the INSERT, for the original columns. *)
Definition legacy_values (wd : WarningData.t) (level : Z)
  (issue : JsDate) (expires : option JsDate) : sum string Legacy.t :=
  match sql_date issue with
  | inl e => inl e
  | inr issue_d =>
      match on_value sql_date expires with
      | inl e => inl e
      | inr expires_d =>
          inr (Legacy.mk (WarningData.agentEmail wd)
                 (match WarningData.actionLogId wd with Some 0 => None | a => a end)
                 (Some level) (Some issue_d) expires_d (Some "Active"))
      end
  end.

(** The INSERT of [recordWarning], given the [values] array.  The columns
    the schema adds are declared there: warning_type VARCHAR(50),
    warning_subtype VARCHAR(100), metric_type VARCHAR(20), issued_by
    VARCHAR(255), notes TEXT, week_start_date and week_end_date DATE, client
    and category VARCHAR(255). *)
Definition insert_warning (wd : WarningData.t) (level : Z)
  (issue : JsDate) (expires : option JsDate) (db : Database)
  : sum string (Database * Z) :=
  let srv := server db in
  match legacy_values wd level issue expires with inl e => inl e | inr prepared =>
  match Server.legacy_in srv prepared with inl e => inl e | inr legacy =>
  match on_value (Server.varchar_in srv 50) (WarningData.warningType wd)
  with inl e => inl e | inr c_type =>
  match on_value (Server.varchar_in srv 100) (WarningData.warningSubtype wd)
  with inl e => inl e | inr c_subtype =>
  match on_value (Server.varchar_in srv 20) (WarningData.metricType wd)
  with inl e => inl e | inr c_metric =>
  match on_value (Server.varchar_in srv 255) (WarningData.issuedBy wd)
  with inl e => inl e | inr c_issued_by =>
  match on_value (Server.text_in srv) (WarningData.notes wd)
  with inl e => inl e | inr c_notes =>
  match on_value (Server.date_in srv) (WarningData.weekStartDate wd)
  with inl e => inl e | inr c_week_start =>
  match on_value (Server.date_in srv) (WarningData.weekEndDate wd)
  with inl e => inl e | inr c_week_end =>
  match on_value (Server.varchar_in srv 255) (WarningData.client wd)
  with inl e => inl e | inr c_client =>
  match on_value (Server.varchar_in srv 255) (WarningData.category wd)
  with inl e => inl e | inr c_category =>
    let row :=
      mkWarningRow (warnings_id_seq db)
        (Legacy.agent_email legacy) (Legacy.action_log_id legacy)
        (Legacy.warning_level legacy) (Legacy.issue_date legacy)
        (Legacy.expiration_date legacy) (Legacy.status legacy)
        c_type c_subtype c_metric c_issued_by c_notes
        c_week_start c_week_end c_client c_category in
    inr (mkDatabase (clock_ms db) (fault db) (server db)
           (tbl_warnings db ++ [row]) (tbl_action_log db)
           (tbl_leadership_reports db) (warnings_id_seq db + 1),
         id row)
  end end end end end end end end end end end.

Definition recordWarning (warningData : WarningData.t) : Pg Z :=
  db <- get ;;
  let now := clock_ms db in
  let warningLevel := warningLevel_of (WarningData.warningType warningData) in
  let expiresDate := expiresDate_of now (WarningData.warningType warningData) in
  let issue :=
    match WarningData.issuedDate warningData with
    | Some t => new_Date t
    | None => new_Date now
    end in
  pool_insert (insert_warning warningData warningLevel issue expiresDate).

(** ** The ladder as the specification words it *)

(** The specification describes the resolver as an ordered list of
    evaluators tried in sequence, first match wins, with a fallback.  This
    is that description; [generateRecommendation] is shown to compute it. *)
Definition spec_ladder : list (list WarningRow -> CaseResult) :=
  [evaluateCaseC; evaluateCaseB; evaluateCaseA].

Definition spec_first_match (ladder : list (list WarningRow -> CaseResult))
  (warnings : list WarningRow) : option CaseResult :=
  find applies (map (fun evaluator => evaluator warnings) ladder).

Definition spec_resolve (warnings : list WarningRow)
  (agent metric weekStart weekEnd : option string) : CaseResult :=
  match spec_first_match spec_ladder warnings with
  | Some r => with_metadata r agent metric weekStart weekEnd
  | None => first_result agent metric weekStart weekEnd
  end.

(** The read contract as the specification words it: status = Active AND
    (expiration IS NULL OR expiration >= evaluation date). *)
Definition spec_is_active (today : Z) (w : WarningRow) : bool :=
  strict_eq (status w) "Active" &&
  match expiration_date w with
  | None => true
  | Some e => today <=? e
  end.

(** A warning counts toward the thresholds of an agent and metric when it
    is theirs and active. *)
Definition spec_counts_toward (today : Z) (a m : string) (w : WarningRow) : bool :=
  strict_eq (agent_email w) a && strict_eq (metric_type w) m && spec_is_active today w.

(** The leadership condition as the specification words it. *)

(** A row belongs to the agent the question is about. *)
Definition for_agent (column agent : option string) : Prop :=
  exists a, column = Some a /\ agent = Some a.

(** A leadership report that is active and unexpired on the given day. *)
Definition active_report (today : Z) (leader : option string)
  (r : LeadershipReportRow) : Prop :=
  for_agent (leader_email r) leader /\
  is_active r = Some true /\
  (expires_date r = None \/ exists e, expires_date r = Some e /\ today <= e).

(** ** Sample stores *)

Module Sample.

Definition agent : option string := Some "agent@onq.global".
Definition leader : option string := Some "lead@onq.global".
Definition QA : option string := Some "QA".

(** Evaluation happens on day 20000. *)
Definition noon (day : Z) : Z := day * MS_PER_DAY + 12 * 60 * 60 * 1000.

Definition warning (n : Z) (kind : string) (issued : Z) (expires : option Z)
  (st : string) : WarningRow :=
  mkWarningRow n agent None (Some (warningLevel_of (Some kind))) (Some issued)
    expires (Some st) (Some kind) None QA None None None None None None.

(** A server for the samples: texts are stored as sent when they fit the
    declared length, dates are read in the form YYYY-MM-DD, and the
    original columns take what they are given. *)
Definition fits_varchar (n : nat) (s : string) : sum string string :=
  if Nat.leb (String.length s) n then inr s
  else inl "value too long for type character varying".

Definition digit (c : Ascii.ascii) : option nat :=
  let n := Ascii.nat_of_ascii c in
  if Nat.leb 48 n && Nat.leb n 57 then Some (n - 48)%nat else None.

Definition number (cs : list Ascii.ascii) : option nat :=
  fold_left (fun acc c =>
               match acc, digit c with
               | Some a, Some d => Some (10 * a + d)%nat
               | _, _ => None
               end) cs (Some 0%nat).

Definition days_in_month (y m : nat) : nat :=
  if Nat.eqb m 2 then
    if (Nat.eqb (y mod 4) 0 && negb (Nat.eqb (y mod 100) 0)) || Nat.eqb (y mod 400) 0
    then 29%nat else 28%nat
  else if Nat.eqb m 4 || Nat.eqb m 6 || Nat.eqb m 9 || Nat.eqb m 11
  then 30%nat else 31%nat.

(** Day number of a date of the Gregorian calendar, year 1 or later. *)
Definition days_from_civil (y m d : nat) : Z :=
  let y' := if Nat.leb m 2 then (y - 1)%nat else y in
  let era := (y' / 400)%nat in
  let yoe := (y' - era * 400)%nat in
  let mp := ((m + 9) mod 12)%nat in
  let doy := ((153 * mp + 2) / 5 + d - 1)%nat in
  let doe := (yoe * 365 + yoe / 4 - yoe / 100 + doy)%nat in
  Z.of_nat era * 146097 + Z.of_nat doe - 719468.

Definition iso_date (s : string) : sum string Z :=
  match list_ascii_of_string s with
  | [y1; y2; y3; y4; "-"%char; m1; m2; "-"%char; d1; d2] =>
      match number [y1; y2; y3; y4], number [m1; m2], number [d1; d2] with
      | Some y, Some m, Some d =>
          if Nat.leb 1 y && Nat.leb 1 m && Nat.leb m 12 &&
             Nat.leb 1 d && Nat.leb d (days_in_month y m)
          then inr (days_from_civil y m d)
          else inl "date/time field value out of range"
      | _, _, _ => inl "invalid input syntax for type date"
      end
  | _ => inl "invalid input syntax for type date"
  end.

Definition accepting : Server.t :=
  Server.mk fits_varchar (fun s => inr s) iso_date (fun l => inr l).

Definition store (ws : list WarningRow) (al : list ActionLogRow)
  (lr : list LeadershipReportRow) : Database :=
  mkDatabase (noon 20000) None accepting ws al lr (1 + Z.of_nat (length ws)).

Definition verbal (n : Z) := warning n "Verbal" 19990 (Some 20080) "Active".
Definition written (n : Z) := warning n "Written" 19990 (Some 20170) "Active".
Definition coaching (n : Z) := warning n "Coaching" 19990 None "Active".
Definition expired_written (n : Z) := warning n "Written" 19700 (Some 19880) "Active".

Definition low_week (d : Z) : WeekRow := mkWeekRow (Some d) (Some "Low") (Some "Normal").
Definition ok_week (d : Z) : WeekRow := mkWeekRow (Some d) (Some "Normal") (Some "High").

End Sample.

Module SampleDb.
Import Sample.

Definition one_verbal := store [verbal 1; coaching 2] [] [].
Definition two_written_three_verbal :=
  store [verbal 1; written 2; verbal 3; written 4; verbal 5] [] [].
Definition three_verbal_one_written :=
  store [verbal 1; verbal 2; written 3; verbal 4] [] [].
Definition one_written := store [written 1] [] [].
Definition five_expired_written :=
  store [expired_written 1; expired_written 2; expired_written 3;
         expired_written 4; expired_written 5] [] [].

(** Three weeks below target out of four; the first of them starts on day
    19970. *)
Definition weeks : list WeekRow :=
  [ok_week 19963; low_week 19970; low_week 19977; ok_week 19984; low_week 19991].

(** A store with a warning and an action-log entry of the agent near the
    weeks below. *)
Definition mixed_actions :=
  store [warning 1 "Coaching" 19975 None "Active"] [mkActionLogRow agent (Some 19972)] [].

(** Three weeks below target, and nothing on record for the agent. *)
Definition three_low_weeks : list WeekRow :=
  [low_week 19970; low_week 19977; low_week 19984].

Definition report (n : Z) (expires : option Z) (active : bool) : LeadershipReportRow :=
  mkLeadershipReportRow n leader (Some 19950) expires (Some active).

(** One report expired the day before, one switched off. *)
Definition no_active_report := store [] [] [report 1 (Some 19999) true; report 2 None false].
Definition one_active_report := store [] [] [report 1 (Some 20000) true].
Definition three_active_reports :=
  store [] [] [report 1 (Some 20000) true; report 2 None true; report 3 (Some 20100) true].

Definition empty := store [] [] [].

(** A Verbal warning recorded on day 20000 for an incident dated day 19900. *)
Definition backdated_verbal : WarningData.t :=
  WarningData.mk agent None (Some "Verbal") (Some (noon 19900)) None QA leader
    None None None None None.

End SampleDb.

(** ** The HTTP handlers that call the engine (server.js) *)

(** What a handler sends: the status code ([res.json] alone sends 200) and
    the JSON body. *)
Module Http.

Inductive Json :=
| Warnings (rows : list WarningRow)
| Reports (rows : list LeadershipReportRow)
| Recommendation (result : CaseResult)
| WarningRecorded (warningId : Z)
| Error (error details : string).

Record Response := mk {
  code : Z;
  body : Json
}.

End Http.

(** [try { ... res.json(ok(x)) } catch (err) { res.status(500).json({ error:
    'Server Error', details: err.message }) }] *)
Definition respond {A} (c : Pg A) (ok : A -> Http.Json) (db : Database)
  : Http.Response * Database :=
  match run c db with
  | inr (a, db') => (Http.mk 200 (ok a), db')
  | inl e => (Http.mk 500 (Http.Error "Server Error" e), db)
  end.

(** [if (metricType)] on a query-string member: present and not empty. *)
Definition truthy_text (v : option string) : bool :=
  match v with
  | None | Some "" => false
  | Some _ => true
  end.

(** GET /api/warnings/:agentEmail — the query text is assembled from the
    request: the metric condition is added only for a truthy [metricType]. *)
Definition select_warnings (agentEmail : string) (metricType : option string)
  (db : Database) : list WarningRow :=
  Sql.order_by_desc issue_date
    (Sql.where_
       (fun w =>
          if truthy_text metricType then
            Sql.and3 (Sql.eq_text (agent_email w) (Some agentEmail))
                     (Sql.eq_text (metric_type w) metricType)
          else Sql.eq_text (agent_email w) (Some agentEmail))
       (tbl_warnings db)).

Definition get_warnings (agentEmail : string) (metricType : option string) :=
  respond (pool_query (select_warnings agentEmail metricType)) Http.Warnings.

(** GET /api/warnings/:agentEmail/active *)
Definition get_active_warnings (agentEmail : string) (metricType : option string) :=
  respond (getActiveWarnings (Some agentEmail) metricType) Http.Warnings.

(** POST /api/warnings *)
Definition post_warnings (warningData : WarningData.t) :=
  respond (recordWarning warningData) Http.WarningRecorded.


(** GET /api/leadership-reports — WHERE 1=1, then one condition per
    request member that asks for it. *)
Definition select_leadership_reports (leaderEmail activeOnly : option string)
  (db : Database) : list LeadershipReportRow :=
  Sql.order_by_desc issued_date
    (Sql.where_
       (fun r =>
          Sql.and3
            (Sql.and3 (Some true)
               (if truthy_text leaderEmail
                then Sql.eq_text (leader_email r) leaderEmail
                else Some true))
            (if strict_eq activeOnly "true"
             then Sql.eq_bool (is_active r) (Some true)
             else Some true))
       (tbl_leadership_reports db)).

Definition get_leadership_reports (leaderEmail activeOnly : option string) :=
  respond (pool_query (select_leadership_reports leaderEmail activeOnly)) Http.Reports.

(** ** Saving a recommendation *)

(** consolidations.recommendations as the schema declares it, with the
    columns the INSERT of [saveRecommendation] names and the ones that
    carry a NOT NULL constraint or a default. *)
Record RecommendationRow := mkRecommendationRow {
  recommendation_id : Z;
  rec_agent_id : option string;
  rec_agent_email : option string;
  recommendation_type : option string;
  case_type : option string;
  rec_metric_type : option string;
  recommendation_text : option string;
  rec_priority : option string;
  generated_date : option Z;
  generated_for_week_start : option Z;
  generated_for_week_end : option Z;
  is_actioned : option bool
}.

(** The store with the recommendations table next to the engine's tables. *)
Record Store := mkStore {
  engine_db : Database;
  tbl_recommendations : list RecommendationRow;
  recommendations_id_seq : Z
}.

Definition PgS := stateT Store (sum string).

Definition runS {A} (c : PgS A) (st : Store) : sum string (A * Store) :=
  runStateT c st.

(** The columns declared NOT NULL (the serial key apart). *)
Definition not_null_violation (row : RecommendationRow) : option string :=
  match rec_agent_id row with None => Some "agent_id" | Some _ =>
  match rec_agent_email row with None => Some "agent_email" | Some _ =>
  match recommendation_type row with None => Some "recommendation_type" | Some _ =>
  match case_type row with None => Some "case_type" | Some _ =>
  match rec_metric_type row with None => Some "metric_type" | Some _ =>
  match recommendation_text row with None => Some "recommendation_text" | Some _ =>
  match generated_date row with None => Some "generated_date" | Some _ =>
  None
  end end end end end end end.

Section SaveRecommendation.

(** The server's input conversions, which the source does not contain:
    assignment of a text to VARCHAR(n), and DATE input. *)
Variable varchar_in : nat -> string -> sum string string.
Variable date_in : string -> sum string Z.

Definition convert {A} (f : string -> sum string A) (v : option string)
  : sum string (option A) :=
  match v with
  | None => inr None
  | Some s => match f s with inl e => inl e | inr x => inr (Some x) end
  end.

(** The INSERT of [saveRecommendation] for the eight parameters: the
    columns it does not name take their defaults (none for [agent_id],
    false for [is_actioned]), [generated_date] is CURRENT_DATE. *)
Definition insert_recommendation
  (agent_email_ type_ case_ metric_ text_ priority_ week_start week_end : option string)
  (st : Store) : sum string (Store * Z) :=
  match convert (varchar_in 255) agent_email_ with inl e => inl e | inr c_email =>
  match convert (varchar_in 100) type_ with inl e => inl e | inr c_type =>
  match convert (varchar_in 10) case_ with inl e => inl e | inr c_case =>
  match convert (varchar_in 20) metric_ with inl e => inl e | inr c_metric =>
  match convert (varchar_in 20) priority_ with inl e => inl e | inr c_priority =>
  match convert date_in week_start with inl e => inl e | inr c_start =>
  match convert date_in week_end with inl e => inl e | inr c_end =>
    let row :=
      mkRecommendationRow (recommendations_id_seq st) None c_email c_type c_case
        c_metric text_ c_priority (Some (CURRENT_DATE (engine_db st)))
        c_start c_end (Some false) in
    match not_null_violation row with
    | Some column =>
        inl ("null value in column " ++ column ++ " violates not-null constraint")
    | None =>
        inr (mkStore (engine_db st) (tbl_recommendations st ++ [row])
               (recommendations_id_seq st + 1),
             recommendation_id row)
    end
  end end end end end end end.

Definition saveRecommendation (recommendation_ : CaseResult) : PgS Z :=
  st <- get ;;
  match fault (engine_db st) with
  | Some e => raise e
  | None =>
      match insert_recommendation
              (agentEmail recommendation_) (recommendation recommendation_)
              (case recommendation_) (metricType recommendation_)
              (details recommendation_) (priority recommendation_)
              (weekStartDate recommendation_) (weekEndDate recommendation_) st with
      | inl e => raise e
      | inr (st', rid) => put st' ;; ret rid
      end
  end.

End SaveRecommendation.

(** ** Auxiliary notions for the properties *)

(** The store [k] days later, nothing written in between. *)
Definition days_later (k : Z) (db : Database) : Database :=
  mkDatabase (clock_ms db + k * MS_PER_DAY) (fault db) (server db) (tbl_warnings db)
    (tbl_action_log db) (tbl_leadership_reports db) (warnings_id_seq db).

(** The server takes the warning and stores it as it was sent: the original
    columns accept the prepared values unchanged, the kind and the metric
    fit their columns as they are, and the remaining members pass the input
    routines of their columns. *)
Definition stored_as_sent (db : Database) (wd : WarningData.t) : Prop :=
  let srv := server db in
  (exists prepared,
     legacy_values wd (warningLevel_of (WarningData.warningType wd))
       (match WarningData.issuedDate wd with
        | Some t => new_Date t
        | None => new_Date (clock_ms db)
        end)
       (expiresDate_of (clock_ms db) (WarningData.warningType wd)) = inr prepared /\
     Server.legacy_in srv prepared = inr prepared) /\
  on_value (Server.varchar_in srv 50) (WarningData.warningType wd) =
    inr (WarningData.warningType wd) /\
  on_value (Server.varchar_in srv 20) (WarningData.metricType wd) =
    inr (WarningData.metricType wd) /\
  (exists v, on_value (Server.varchar_in srv 100) (WarningData.warningSubtype wd) = inr v) /\
  (exists v, on_value (Server.varchar_in srv 255) (WarningData.issuedBy wd) = inr v) /\
  (exists v, on_value (Server.text_in srv) (WarningData.notes wd) = inr v) /\
  (exists v, on_value (Server.date_in srv) (WarningData.weekStartDate wd) = inr v) /\
  (exists v, on_value (Server.date_in srv) (WarningData.weekEndDate wd) = inr v) /\
  (exists v, on_value (Server.varchar_in srv 255) (WarningData.client wd) = inr v) /\
  (exists v, on_value (Server.varchar_in srv 255) (WarningData.category wd) = inr v).

(** Rank of a case on the agent ladder. *)
Definition severity (c : option string) : nat :=
  match c with
  | Some "C" => 3
  | Some "B" => 2
  | Some "A" => 1
  | _ => 0
  end.

(** The case as a table over the two counts. *)
Definition case_of_counts (verbal written : nat) : string :=
  if Nat.leb 2 written then "C"
  else if Nat.leb 2 verbal then "B"
  else if Nat.eqb verbal 1 then "A"
  else "First".

Module SampleX.
Import Sample SampleDb.

(** A store with rows of two agents; day 20000. *)
Definition other_agent (w : WarningRow) : WarningRow :=
  mkWarningRow (id w + 100) (Some "other@onq.global") (action_log_id w)
    (warning_level w) (issue_date w) (expiration_date w) (status w)
    (warning_type w) (warning_subtype w) (metric_type w) (issued_by w)
    (notes w) (week_start_date w) (week_end_date w) (client w) (category w).

Definition mixed :=
  store [verbal 1; other_agent (written 2); other_agent (written 3); coaching 4]
    [] [report 1 (Some 19999) true; report 2 (Some 20050) true].

Definition one_verbal_one_written := store [written 1; verbal 2] [] [].
Definition one_verbal_two_coaching := store [coaching 1; verbal 2; coaching 3] [] [].

Definition new_warning (kind : option string) : WarningData.t :=
  WarningData.mk agent (Some 0) kind None (Some "Substandard Work - QA") QA
    leader None (Some "2024-10-07") (Some "2024-10-13") None None.

(** The store a recording leaves behind (the store itself when refused). *)
Definition after_recording (wd : WarningData.t) (db : Database) : Database :=
  match run (recordWarning wd) db with
  | inr (_, db') => db'
  | inl _ => db
  end.

Definition unreachable (db : Database) : Database :=
  mkDatabase (clock_ms db) (Some "connect ECONNREFUSED") (server db) (tbl_warnings db)
    (tbl_action_log db) (tbl_leadership_reports db) (warnings_id_seq db).

End SampleX.

(** * Properties *)

(** ** Running [Pg] computations *)

Section RunLaws.
Context {A B : Type}.

Lemma run_ret (a : A) db : run (ret a) db = inr (a, db).
Proof. reflexivity. Qed.

Lemma run_raise (e : string) db : run (raise e : Pg A) db = inl e.
Proof. reflexivity. Qed.

Lemma run_bind (c : Pg A) (k : A -> Pg B) db :
  run (bind c k) db =
  match run c db with
  | inl e => inl e
  | inr (a, db') => run (k a) db'
  end.
Proof. unfold run. cbn. destruct (runStateT c db) as [e | [a db']]; reflexivity. Qed.

Lemma run_if (b : bool) (c1 c2 : Pg A) db :
  run (if b then c1 else c2) db = if b then run c1 db else run c2 db.
Proof. destruct b; reflexivity. Qed.

(** [try { ... } catch (error) { console.error(...); throw error; }] *)
Lemma run_catch_rethrow (c : Pg A) db :
  run (catch c (fun error => raise error)) db = run c db.
Proof. unfold run. cbn. destruct (runStateT c db); reflexivity. Qed.

Lemma run_pool_query (select : Database -> A) db :
  run (pool_query select) db =
  match fault db with
  | Some e => inl e
  | None => inr (select db, db)
  end.
Proof. unfold run, pool_query. cbn. destruct (fault db); reflexivity. Qed.

Lemma run_pool_parse_query (statement : sum string (Database -> A)) db :
  run (pool_parse_query statement) db =
  match fault db with
  | Some e => inl e
  | None =>
      match statement with
      | inl e => inl e
      | inr select => inr (select db, db)
      end
  end.
Proof.
  unfold run, pool_parse_query. cbn. destruct (fault db); [reflexivity |].
  destruct statement; reflexivity.
Qed.

End RunLaws.

Lemma run_getActiveWarnings ag m db ws db' :
  run (getActiveWarnings ag m) db = inr (ws, db') <->
  fault db = None /\ ws = select_active_warnings ag m db /\ db' = db.
Proof.
  unfold getActiveWarnings. rewrite run_pool_query.
  destruct (fault db); split.
  - discriminate.
  - intros (H & _). discriminate.
  - intros H. injection H as <- <-. auto.
  - intros (_ & -> & ->). reflexivity.
Qed.

(** ** The evaluators *)

Lemma evaluateCaseA_applies ws :
  applies (evaluateCaseA ws) = Nat.eqb (countWarningsByType ws "Verbal") 1.
Proof. unfold evaluateCaseA. cbv zeta. destruct (Nat.eqb _ 1); reflexivity. Qed.

Lemma evaluateCaseB_applies ws :
  applies (evaluateCaseB ws) = Nat.leb 2 (countWarningsByType ws "Verbal").
Proof. unfold evaluateCaseB. cbv zeta. destruct (Nat.leb 2 _); reflexivity. Qed.

Lemma evaluateCaseC_applies ws :
  applies (evaluateCaseC ws) = Nat.leb 2 (countWarningsByType ws "Written").
Proof. unfold evaluateCaseC. cbv zeta. destruct (Nat.leb 2 _); reflexivity. Qed.

Lemma evaluateCaseA_case ws :
  applies (evaluateCaseA ws) = true ->
  case (evaluateCaseA ws) = Some "A" /\ priority (evaluateCaseA ws) = Some "Medium".
Proof. unfold evaluateCaseA. cbv zeta. destruct (Nat.eqb _ 1); [split; reflexivity | discriminate]. Qed.

Lemma evaluateCaseB_case ws :
  applies (evaluateCaseB ws) = true ->
  case (evaluateCaseB ws) = Some "B" /\ priority (evaluateCaseB ws) = Some "High".
Proof. unfold evaluateCaseB. cbv zeta. destruct (Nat.leb 2 _); [split; reflexivity | discriminate]. Qed.

Lemma evaluateCaseC_case ws :
  applies (evaluateCaseC ws) = true ->
  case (evaluateCaseC ws) = Some "C" /\ priority (evaluateCaseC ws) = Some "Critical".
Proof. unfold evaluateCaseC. cbv zeta. destruct (Nat.leb 2 _); [split; reflexivity | discriminate]. Qed.

(** ** The resolver *)

(** [generateRecommendation] computes the first-match ladder on the rows the
    read returns, and leaves the store as it was. *)
Lemma run_generateRecommendation ag m wsd wed db :
  run (generateRecommendation ag m wsd wed) db =
  match fault db with
  | Some e => inl e
  | None => inr (spec_resolve (select_active_warnings ag m db) ag m wsd wed, db)
  end.
Proof.
  unfold generateRecommendation, getActiveWarnings.
  rewrite run_catch_rethrow, run_bind, run_pool_query.
  destruct (fault db); [reflexivity |].
  rewrite !run_if, !run_ret.
  unfold spec_resolve, spec_first_match, spec_ladder. cbn [map find].
  destruct (applies (evaluateCaseC _)); [reflexivity |].
  destruct (applies (evaluateCaseB _)); [reflexivity |].
  destruct (applies (evaluateCaseA _)); reflexivity.
Qed.

(** The four ways the ladder can end. *)
Lemma spec_resolve_cases ws ag m wsd wed :
  let r := spec_resolve ws ag m wsd wed in
  (applies (evaluateCaseC ws) = true /\
   r = with_metadata (evaluateCaseC ws) ag m wsd wed) \/
  (applies (evaluateCaseC ws) = false /\ applies (evaluateCaseB ws) = true /\
   r = with_metadata (evaluateCaseB ws) ag m wsd wed) \/
  (applies (evaluateCaseC ws) = false /\ applies (evaluateCaseB ws) = false /\
   applies (evaluateCaseA ws) = true /\
   r = with_metadata (evaluateCaseA ws) ag m wsd wed) \/
  (applies (evaluateCaseC ws) = false /\ applies (evaluateCaseB ws) = false /\
   applies (evaluateCaseA ws) = false /\
   r = first_result ag m wsd wed).
Proof.
  unfold spec_resolve, spec_first_match, spec_ladder. cbn [map find].
  destruct (applies (evaluateCaseC ws)) eqn:HC; [left; auto |].
  destruct (applies (evaluateCaseB ws)) eqn:HB; [right; left; auto |].
  destruct (applies (evaluateCaseA ws)) eqn:HA; [right; right; left; auto |].
  right; right; right; auto.
Qed.

Lemma case_with_metadata r ag m wsd wed :
  case (with_metadata r ag m wsd wed) = case r /\
  priority (with_metadata r ag m wsd wed) = priority r /\
  applies (with_metadata r ag m wsd wed) = applies r.
Proof. repeat split. Qed.

(** ** The agent ladder: claims *)

(** C1.  Whatever list of active warnings the read hands to the resolver,
    [generateRecommendation] returns one result, it applies, and its case
    is C, B, A or First: the first of Case C, Case B, Case A (in that
    order) that applies, and the "First" fallback exactly when none does.
    The result is the one the specification's first-match ladder gives,
    and no other result can come out of the same call. *)
Theorem generateRecommendation_exactly_one_case ag m wsd wed db ws :
  run (getActiveWarnings ag m) db = inr (ws, db) ->
  exists r,
    run (generateRecommendation ag m wsd wed) db = inr (r, db) /\
    (forall r' db', run (generateRecommendation ag m wsd wed) db = inr (r', db') ->
                    r' = r) /\
    r = spec_resolve ws ag m wsd wed /\
    applies r = true /\
    In (case r) [Some "C"; Some "B"; Some "A"; Some "First"] /\
    (case r = Some "C" <-> applies (evaluateCaseC ws) = true) /\
    (case r = Some "B" <->
       applies (evaluateCaseC ws) = false /\ applies (evaluateCaseB ws) = true) /\
    (case r = Some "A" <->
       applies (evaluateCaseC ws) = false /\ applies (evaluateCaseB ws) = false /\
       applies (evaluateCaseA ws) = true) /\
    (case r = Some "First" <->
       applies (evaluateCaseC ws) = false /\ applies (evaluateCaseB ws) = false /\
       applies (evaluateCaseA ws) = false).
Proof.
  intros Hread. apply run_getActiveWarnings in Hread as (Hf & -> & _).
  set (ws := select_active_warnings ag m db).
  exists (spec_resolve ws ag m wsd wed).
  rewrite run_generateRecommendation, Hf. fold ws.
  split; [reflexivity |].
  split; [intros r' db' H; injection H as <- _; reflexivity |].
  split; [reflexivity |].
  destruct (spec_resolve_cases ws ag m wsd wed) as
    [(HC & ->) | [(HC & HB & ->) | [(HC & HB & HA & ->) | (HC & HB & HA & ->)]]].
  - destruct (evaluateCaseC_case ws HC) as (Hc & _).
    cbn [with_metadata case applies]. rewrite Hc, HC.
    repeat split; try (cbn; tauto); try discriminate; intros; intuition discriminate.
  - destruct (evaluateCaseB_case ws HB) as (Hc & _).
    cbn [with_metadata case applies]. rewrite Hc, HB, HC.
    repeat split; try (cbn; tauto); try discriminate; intros; intuition discriminate.
  - destruct (evaluateCaseA_case ws HA) as (Hc & _).
    cbn [with_metadata case applies]. rewrite Hc, HA, HB, HC.
    repeat split; try (cbn; tauto); try discriminate; intros; intuition discriminate.
  - cbn [first_result case applies]. rewrite HA, HB, HC.
    repeat split; try (cbn; tauto); try discriminate; intros; intuition discriminate.
Qed.

Lemma generateRecommendation_exactly_one_case_witness :
  exists r,
    run (generateRecommendation Sample.agent Sample.QA (Some "2024-10-07") (Some "2024-10-13"))
        SampleDb.one_verbal = inr (r, SampleDb.one_verbal) /\
    case r = Some "A".
Proof.
  destruct (generateRecommendation_exactly_one_case
              Sample.agent Sample.QA (Some "2024-10-07") (Some "2024-10-13")
              SampleDb.one_verbal
              (select_active_warnings Sample.agent Sample.QA SampleDb.one_verbal)
              eq_refl)
    as (r & Hrun & _ & _ & _ & _ & _ & _ & HA & _).
  exists r. split; [exact Hrun |].
  apply HA. vm_compute. auto.
Defined.

(** C2.  When the active warnings include two or more Written ones, the
    result is Case C with priority Critical, whatever the number of Verbal
    ones. *)
Theorem two_written_gives_case_C ag m wsd wed db ws :
  run (getActiveWarnings ag m) db = inr (ws, db) ->
  (2 <= countWarningsByType ws "Written")%nat ->
  (case (evaluateCaseC ws) = Some "C" /\ priority (evaluateCaseC ws) = Some "Critical") /\
  exists r,
    run (generateRecommendation ag m wsd wed) db = inr (r, db) /\
    case r = Some "C" /\ priority r = Some "Critical".
Proof.
  intros Hread Hw. apply run_getActiveWarnings in Hread as (Hf & Hws & _).
  assert (HC : applies (evaluateCaseC ws) = true)
    by (rewrite evaluateCaseC_applies; apply Nat.leb_le; exact Hw).
  split; [exact (evaluateCaseC_case ws HC) |].
  rewrite run_generateRecommendation, Hf, <- Hws.
  eexists; split; [reflexivity |].
  destruct (spec_resolve_cases ws ag m wsd wed) as
    [(_ & ->) | [(HC' & _) | [(HC' & _) | (HC' & _)]]]; try congruence.
  exact (evaluateCaseC_case ws HC).
Qed.

Lemma two_written_gives_case_C_witness :
  exists r,
    run (generateRecommendation Sample.agent Sample.QA None None)
        SampleDb.two_written_three_verbal = inr (r, SampleDb.two_written_three_verbal) /\
    case r = Some "C" /\ priority r = Some "Critical".
Proof.
  apply (two_written_gives_case_C Sample.agent Sample.QA None None
           SampleDb.two_written_three_verbal
           (select_active_warnings Sample.agent Sample.QA SampleDb.two_written_three_verbal)).
  - reflexivity.
  - vm_compute. lia.
Defined.

(** C3.  When the active warnings include two or more Verbal ones and fewer
    than two Written ones, the result is Case B with priority High.  The
    Verbal count is only bounded from below: two, three or any larger
    number of Verbal warnings give the same case, so a store with at least
    as many active Verbal warnings (and still fewer than two Written ones)
    is answered with Case B as well. *)
Theorem two_verbal_gives_case_B ag m wsd wed db ws :
  run (getActiveWarnings ag m) db = inr (ws, db) ->
  (2 <= countWarningsByType ws "Verbal")%nat ->
  (countWarningsByType ws "Written" < 2)%nat ->
  (exists r,
     run (generateRecommendation ag m wsd wed) db = inr (r, db) /\
     case r = Some "B" /\ priority r = Some "High") /\
  (forall db' ws',
     run (getActiveWarnings ag m) db' = inr (ws', db') ->
     (countWarningsByType ws "Verbal" <= countWarningsByType ws' "Verbal")%nat ->
     (countWarningsByType ws' "Written" < 2)%nat ->
     exists r',
       run (generateRecommendation ag m wsd wed) db' = inr (r', db') /\
       case r' = Some "B" /\ priority r' = Some "High").
Proof.
  assert (Hgen : forall db0 ws0,
             run (getActiveWarnings ag m) db0 = inr (ws0, db0) ->
             (2 <= countWarningsByType ws0 "Verbal")%nat ->
             (countWarningsByType ws0 "Written" < 2)%nat ->
             exists r,
               run (generateRecommendation ag m wsd wed) db0 = inr (r, db0) /\
               case r = Some "B" /\ priority r = Some "High").
  { intros db0 ws0 Hread Hv Hw.
    apply run_getActiveWarnings in Hread as (Hf & Hws & _).
    assert (HC : applies (evaluateCaseC ws0) = false)
      by (rewrite evaluateCaseC_applies; apply Nat.leb_gt; exact Hw).
    assert (HB : applies (evaluateCaseB ws0) = true)
      by (rewrite evaluateCaseB_applies; apply Nat.leb_le; exact Hv).
    rewrite run_generateRecommendation, Hf, <- Hws.
    eexists; split; [reflexivity |].
    destruct (spec_resolve_cases ws0 ag m wsd wed) as
      [(HC' & _) | [(_ & _ & ->) | [(_ & HB' & _) | (_ & HB' & _)]]]; try congruence.
    exact (evaluateCaseB_case ws0 HB). }
  intros Hread Hv Hw. split.
  - exact (Hgen db ws Hread Hv Hw).
  - intros db' ws' Hread' Hmore Hw'.
    apply (Hgen db' ws' Hread'); [lia | exact Hw'].
Qed.

Lemma two_verbal_gives_case_B_witness :
  exists r,
    run (generateRecommendation Sample.agent Sample.QA None None)
        SampleDb.three_verbal_one_written = inr (r, SampleDb.three_verbal_one_written) /\
    case r = Some "B" /\ priority r = Some "High".
Proof.
  apply (two_verbal_gives_case_B Sample.agent Sample.QA None None
           SampleDb.three_verbal_one_written
           (select_active_warnings Sample.agent Sample.QA SampleDb.three_verbal_one_written)).
  - reflexivity.
  - vm_compute. lia.
  - vm_compute. lia.
Defined.

(** C4.  Case A tests the Verbal count for equality with 1: it applies to a
    list exactly when that count is 1.  With exactly one active Verbal
    warning and no active Written one, the result is Case A with priority
    Medium. *)
Theorem one_verbal_gives_case_A ag m wsd wed db ws :
  (forall l, applies (evaluateCaseA l) = true <->
             countWarningsByType l "Verbal" = 1%nat) /\
  (run (getActiveWarnings ag m) db = inr (ws, db) ->
   countWarningsByType ws "Verbal" = 1%nat ->
   countWarningsByType ws "Written" = 0%nat ->
   exists r,
     run (generateRecommendation ag m wsd wed) db = inr (r, db) /\
     case r = Some "A" /\ priority r = Some "Medium").
Proof.
  split.
  { intros l. rewrite evaluateCaseA_applies. apply Nat.eqb_eq. }
  intros Hread Hv Hw. apply run_getActiveWarnings in Hread as (Hf & Hws & _).
  assert (HC : applies (evaluateCaseC ws) = false)
    by (rewrite evaluateCaseC_applies, Hw; reflexivity).
  assert (HB : applies (evaluateCaseB ws) = false)
    by (rewrite evaluateCaseB_applies, Hv; reflexivity).
  assert (HA : applies (evaluateCaseA ws) = true)
    by (rewrite evaluateCaseA_applies, Hv; reflexivity).
  rewrite run_generateRecommendation, Hf, <- Hws.
  eexists; split; [reflexivity |].
  destruct (spec_resolve_cases ws ag m wsd wed) as
    [(HC' & _) | [(_ & HB' & _) | [(_ & _ & _ & ->) | (_ & _ & HA' & _)]]];
    try congruence.
  exact (evaluateCaseA_case ws HA).
Qed.

Lemma one_verbal_gives_case_A_witness :
  exists r,
    run (generateRecommendation Sample.agent Sample.QA None None)
        SampleDb.one_verbal = inr (r, SampleDb.one_verbal) /\
    case r = Some "A" /\ priority r = Some "Medium".
Proof.
  apply (one_verbal_gives_case_A Sample.agent Sample.QA None None
           SampleDb.one_verbal
           (select_active_warnings Sample.agent Sample.QA SampleDb.one_verbal)).
  - reflexivity.
  - reflexivity.
  - reflexivity.
Defined.

(** C10.  With no active Verbal warning and exactly one active Written
    warning, none of Case C (Written >= 2), Case B (Verbal >= 2) and Case A
    (Verbal = 1) applies, and the result is the "First" fallback with
    priority Low. *)
Theorem single_written_gives_First ag m wsd wed db ws :
  run (getActiveWarnings ag m) db = inr (ws, db) ->
  countWarningsByType ws "Verbal" = 0%nat ->
  countWarningsByType ws "Written" = 1%nat ->
  applies (evaluateCaseC ws) = false /\
  applies (evaluateCaseB ws) = false /\
  applies (evaluateCaseA ws) = false /\
  exists r,
    run (generateRecommendation ag m wsd wed) db = inr (r, db) /\
    r = first_result ag m wsd wed /\
    case r = Some "First" /\ priority r = Some "Low".
Proof.
  intros Hread Hv Hw. apply run_getActiveWarnings in Hread as (Hf & Hws & _).
  assert (HC : applies (evaluateCaseC ws) = false)
    by (rewrite evaluateCaseC_applies, Hw; reflexivity).
  assert (HB : applies (evaluateCaseB ws) = false)
    by (rewrite evaluateCaseB_applies, Hv; reflexivity).
  assert (HA : applies (evaluateCaseA ws) = false)
    by (rewrite evaluateCaseA_applies, Hv; reflexivity).
  repeat (split; [assumption |]).
  rewrite run_generateRecommendation, Hf, <- Hws.
  eexists; split; [reflexivity |].
  destruct (spec_resolve_cases ws ag m wsd wed) as
    [(HC' & _) | [(_ & HB' & _) | [(_ & _ & HA' & _) | (_ & _ & _ & ->)]]];
    try congruence.
  repeat split.
Qed.

Lemma single_written_gives_First_witness :
  exists r,
    run (generateRecommendation Sample.agent Sample.QA None None)
        SampleDb.one_written = inr (r, SampleDb.one_written) /\
    case r = Some "First" /\ priority r = Some "Low".
Proof.
  destruct (single_written_gives_First Sample.agent Sample.QA None None
              SampleDb.one_written
              (select_active_warnings Sample.agent Sample.QA SampleDb.one_written)
              eq_refl eq_refl eq_refl)
    as (_ & _ & _ & r & Hrun & _ & Hc & Hp).
  exists r. auto.
Defined.

(** ** Reading active rows *)

Section SqlFacts.
Context {R : Type}.

Lemma insert_desc_perm (key : R -> option Z) r rows :
  Permutation (Sql.insert_desc key r rows) (r :: rows).
Proof.
  induction rows as [| r' rest IH]; cbn [Sql.insert_desc].
  - apply Permutation_refl.
  - destruct (Sql.desc_le (key r) (key r')).
    + apply Permutation_refl.
    + eapply perm_trans; [apply perm_skip, IH | apply perm_swap].
Qed.

Lemma order_by_desc_perm (key : R -> option Z) rows :
  Permutation (Sql.order_by_desc key rows) rows.
Proof.
  induction rows as [| r rest IH]; cbn [Sql.order_by_desc fold_right].
  - apply perm_nil.
  - eapply perm_trans; [apply insert_desc_perm |].
    apply perm_skip, IH.
Qed.

Lemma filter_perm (f : R -> bool) l l' :
  Permutation l l' -> Permutation (filter f l) (filter f l').
Proof.
  induction 1 as [| x l l' _ IH | x y l | l l' l'' _ IH1 _ IH2]; cbn [filter].
  - apply perm_nil.
  - destruct (f x); [apply perm_skip |]; exact IH.
  - destruct (f x), (f y); try apply Permutation_refl. apply perm_swap.
  - eapply perm_trans; eassumption.
Qed.

Lemma filter_and (f g : R -> bool) l :
  filter g (filter f l) = filter (fun x => f x && g x) l.
Proof.
  induction l as [| x l IH]; cbn [filter]; [reflexivity |].
  destruct (f x); cbn [filter andb]; [destruct (g x) |]; rewrite IH; reflexivity.
Qed.

Lemma filter_none (f : R -> bool) l :
  Forall (fun x => f x = false) l -> filter f l = [].
Proof.
  induction 1 as [| x l Hx _ IH]; cbn [filter]; [reflexivity |].
  rewrite Hx. exact IH.
Qed.

Lemma where_ext (c : R -> Sql.tv) (f : R -> bool) rows :
  (forall r, Sql.holds (c r) = f r) -> Sql.where_ c rows = filter f rows.
Proof. intros H. unfold Sql.where_. apply filter_ext. exact H. Qed.

End SqlFacts.

(** The WHERE clause of the active-warning read is the specification's
    two-valued predicate, restricted to the agent and the metric. *)
Lemma active_warning_cond_holds today a m w :
  Sql.holds (active_warning_cond today (Some a) (Some m) w) =
  spec_counts_toward today a m w.
Proof.
  unfold active_warning_cond, spec_counts_toward, spec_is_active, strict_eq,
    Sql.eq_text, Sql.ge_date, Sql.is_null, Sql.cmp.
  destruct (agent_email w) as [x |], (metric_type w) as [y |],
    (status w) as [s |], (expiration_date w) as [e |];
    try rewrite Z.geb_leb;
    repeat match goal with
           | |- context [String.eqb ?u ?v] => destruct (String.eqb u v)
           | |- context [Z.leb ?u ?v] => destruct (Z.leb u v)
           end; reflexivity.
Qed.

Lemma spec_is_active_iff today w :
  spec_is_active today w = true <->
  status w = Some "Active" /\
  (expiration_date w = None \/
   exists e, expiration_date w = Some e /\ today <= e).
Proof.
  unfold spec_is_active, strict_eq. rewrite andb_true_iff.
  destruct (status w) as [s |], (expiration_date w) as [e |].
  - rewrite String.eqb_eq, Z.leb_le. split.
    + intros (-> & H). split; [reflexivity | right; eauto].
    + intros (Hs & [Hn | (e' & He & Hle)]); [discriminate |].
      injection Hs as ->. injection He as ->. auto.
  - rewrite String.eqb_eq. split.
    + intros (-> & _). auto.
    + intros (Hs & _). injection Hs as ->. auto.
  - split; [intros (H & _); discriminate | intros (H & _); discriminate].
  - split; [intros (H & _); discriminate | intros (H & _); discriminate].
Qed.

Lemma strict_eq_iff v s : strict_eq v s = true <-> v = Some s.
Proof.
  destruct v as [x |]; cbn [strict_eq].
  - rewrite String.eqb_eq. split; [intros -> | intros H; injection H]; auto.
  - split; discriminate.
Qed.

Lemma select_active_warnings_perm a m db :
  Permutation (select_active_warnings (Some a) (Some m) db)
    (filter (spec_counts_toward (CURRENT_DATE db) a m) (tbl_warnings db)).
Proof.
  unfold select_active_warnings.
  eapply perm_trans; [apply order_by_desc_perm |].
  rewrite (where_ext _ (spec_counts_toward (CURRENT_DATE db) a m))
    by (intros r; apply active_warning_cond_holds).
  apply Permutation_refl.
Qed.

(** C5.  The active-warning read returns, up to the order of rows, exactly
    the warnings of the agent and metric whose status is 'Active' and whose
    expiration date is null or not before the evaluation date; only those
    rows are counted by the evaluators.  Hence a store in which no warning
    is active (such as five Written warnings that have all expired) yields
    the "First" case. *)
Theorem getActiveWarnings_reads_exactly_active a m db :
  fault db = None ->
  exists ws,
    run (getActiveWarnings (Some a) (Some m)) db = inr (ws, db) /\
    Permutation ws
      (filter (spec_counts_toward (CURRENT_DATE db) a m) (tbl_warnings db)) /\
    (forall w, In w ws <->
       In w (tbl_warnings db) /\
       agent_email w = Some a /\ metric_type w = Some m /\
       status w = Some "Active" /\
       (expiration_date w = None \/
        exists e, expiration_date w = Some e /\ CURRENT_DATE db <= e)) /\
    (forall kind,
       countWarningsByType ws kind =
       length (filter (fun w => spec_counts_toward (CURRENT_DATE db) a m w &&
                                strict_eq (warning_type w) kind)
                 (tbl_warnings db))) /\
    (Forall (fun w => spec_is_active (CURRENT_DATE db) w = false) (tbl_warnings db) ->
     forall wsd wed,
       run (generateRecommendation (Some a) (Some m) wsd wed) db =
       inr (first_result (Some a) (Some m) wsd wed, db)).
Proof.
  intros Hf.
  pose proof (select_active_warnings_perm a m db) as Hperm.
  exists (select_active_warnings (Some a) (Some m) db).
  split; [apply run_getActiveWarnings; auto |].
  split; [exact Hperm |].
  split.
  { intros w. split.
    - intros Hin. apply (Permutation_in _ Hperm) in Hin.
      apply filter_In in Hin as (Hin & Hc).
      unfold spec_counts_toward in Hc.
      apply andb_true_iff in Hc as (Hc & Hact).
      apply andb_true_iff in Hc as (Ha & Hm).
      apply strict_eq_iff in Ha, Hm. apply spec_is_active_iff in Hact.
      tauto.
    - intros (Hin & Ha & Hm & Hact).
      apply (Permutation_in _ (Permutation_sym Hperm)).
      apply filter_In. split; [exact Hin |].
      unfold spec_counts_toward.
      rewrite !andb_true_iff, !strict_eq_iff, spec_is_active_iff. tauto. }
  split.
  { intros kind. unfold countWarningsByType.
    rewrite <- filter_and.
    apply Permutation_length, filter_perm, Hperm. }
  intros Hnone wsd wed.
  rewrite run_generateRecommendation, Hf.
  assert (Hempty : filter (spec_counts_toward (CURRENT_DATE db) a m) (tbl_warnings db) = []).
  { apply filter_none. eapply Forall_impl; [| exact Hnone].
    intros w Hw. unfold spec_counts_toward. rewrite Hw. apply andb_false_r. }
  assert (Hnil : select_active_warnings (Some a) (Some m) db = []).
  { apply Permutation_nil, Permutation_sym. rewrite <- Hempty. exact Hperm. }
  rewrite Hnil. reflexivity.
Qed.

Lemma getActiveWarnings_reads_exactly_active_witness :
  run (generateRecommendation Sample.agent Sample.QA None None)
      SampleDb.five_expired_written =
  inr (first_result Sample.agent Sample.QA None None, SampleDb.five_expired_written) /\
  length (tbl_warnings SampleDb.five_expired_written) = 5%nat.
Proof.
  split; [| reflexivity].
  destruct (getActiveWarnings_reads_exactly_active "agent@onq.global" "QA"
              SampleDb.five_expired_written eq_refl)
    as (ws & _ & _ & _ & _ & Hfirst).
  apply Hfirst. repeat constructor.
Defined.

(** ** The leadership path: claims *)

Lemma holds_and3 a b :
  Sql.holds (Sql.and3 a b) = Sql.holds a && Sql.holds b.
Proof. destruct a as [[|] |], b as [[|] |]; reflexivity. Qed.

Lemma holds_or3 a b :
  Sql.holds (Sql.or3 a b) = Sql.holds a || Sql.holds b.
Proof. destruct a as [[|] |], b as [[|] |]; reflexivity. Qed.

Lemma holds_eq_text col ag :
  Sql.holds (Sql.eq_text col ag) = true <-> for_agent col ag.
Proof.
  unfold for_agent. destruct col as [x |], ag as [y |]; cbn.
  - destruct (String.eqb_spec x y) as [-> | Hne]; split; eauto.
    + discriminate.
    + intros (a & Hx & Hy). congruence.
  - split; [discriminate | intros (a & _ & H); discriminate].
  - split; [discriminate | intros (a & H & _); discriminate].
  - split; [discriminate | intros (a & H & _); discriminate].
Qed.

(** The server finds no operator for the first comparison of the statement
    of [checkLeaderAction], whether [issue_date] is a date or a timestamp. *)
Lemma action_count_statement_rejected ag start :
  action_count_statement ag start = inl "operator does not exist: date >= interval" /\
  SqlType.compares SqlType.timestamp (SqlType.shifted SqlType.unknown) = false.
Proof. split; reflexivity. Qed.

Lemma run_checkLeaderAction ag start db :
  run (checkLeaderAction ag start) db =
  inl (match fault db with
       | Some e => e
       | None => "operator does not exist: date >= interval"
       end).
Proof.
  unfold checkLeaderAction. rewrite run_bind, run_pool_parse_query.
  destruct (fault db); reflexivity.
Qed.

(** C6 (the code departs from the claim).  Three underperforming weeks and
    neither a warning nor an action-log entry on record: Case D should
    apply.  The server rejects the statement of [checkLeaderAction] (its
    parameter [$2] has no type, [$2 - INTERVAL '7 days'] is typed as an
    interval and no operator compares a date with an interval), so
    [evaluateCaseD] throws and returns no result. *)
Theorem evaluateCaseD_rejected_on_three_weeks :
  length (filter underperforming SampleDb.three_low_weeks) = 3%nat /\
  tbl_warnings SampleDb.empty = [] /\
  tbl_action_log SampleDb.empty = [] /\
  fault SampleDb.empty = None /\
  run (evaluateCaseD Sample.agent Sample.leader SampleDb.three_low_weeks)
      SampleDb.empty = inl "operator does not exist: date >= interval".
Proof. repeat split. Qed.

Lemma active_report_cond_holds today ld rep :
  Sql.holds (active_report_cond today ld rep) = true <-> active_report today ld rep.
Proof.
  unfold active_report_cond, active_report.
  rewrite !holds_and3, !andb_true_iff, holds_or3, orb_true_iff, holds_eq_text.
  assert (H1 : Sql.holds (Sql.eq_bool (is_active rep) (Some true)) = true <->
               is_active rep = Some true).
  { destruct (is_active rep) as [[|] |]; cbn; split; congruence. }
  assert (H2 : Sql.holds (Sql.is_null (expires_date rep)) = true <->
               expires_date rep = None).
  { destruct (expires_date rep); cbn; split; congruence. }
  assert (H3 : Sql.holds (Sql.ge_date (expires_date rep) (Some today)) = true <->
               exists e, expires_date rep = Some e /\ today <= e).
  { destruct (expires_date rep) as [e |]; cbn.
    - rewrite Z.geb_leb. destruct (Z.leb_spec today e); split.
      + eauto.
      + reflexivity.
      + discriminate.
      + intros (e' & He & Hle). injection He as <-. lia.
    - split; [discriminate | intros (e & H & _); discriminate]. }
  rewrite H1, H2, H3. tauto.
Qed.

Lemma select_active_reports_nonempty ld db :
  (1 <= length (select_active_reports ld db))%nat <->
  exists rep, In rep (tbl_leadership_reports db) /\
              active_report (CURRENT_DATE db) ld rep.
Proof.
  unfold select_active_reports.
  rewrite (Permutation_length (order_by_desc_perm issued_date _)).
  unfold Sql.where_. split.
  - intros Hlen.
    destruct (filter _ (tbl_leadership_reports db)) as [| rep rest] eqn:E;
      [cbn in Hlen; lia |].
    assert (Hin : In rep (filter (fun r => Sql.holds
                    (active_report_cond (CURRENT_DATE db) ld r))
                    (tbl_leadership_reports db))) by (rewrite E; left; reflexivity).
    apply filter_In in Hin as (Hin & Hc).
    exists rep. split; [exact Hin | apply active_report_cond_holds, Hc].
  - intros (rep & Hin & Hact).
    assert (Hin' : In rep (filter (fun r => Sql.holds
                    (active_report_cond (CURRENT_DATE db) ld r))
                    (tbl_leadership_reports db))).
    { apply filter_In. split; [exact Hin | apply active_report_cond_holds, Hact]. }
    destruct (filter _ (tbl_leadership_reports db)); [destruct Hin' | cbn; lia].
Qed.

(** C7.  Case E applies exactly when the leader has at least one leadership
    report that is active and unexpired on the evaluation date; with none
    it does not apply.  When it applies the result is the same whatever the
    number of such reports: the second report with a Written warning,
    priority Critical. *)
Theorem evaluateCaseE_applies_iff ld db :
  fault db = None ->
  exists r,
    run (evaluateCaseE ld) db = inr (r, db) /\
    (applies r = true <->
       exists rep, In rep (tbl_leadership_reports db) /\
                   active_report (CURRENT_DATE db) ld rep) /\
    (applies r = true <-> (1 <= length (select_active_reports ld db))%nat) /\
    (applies r = false -> r = not_applicable) /\
    (applies r = true ->
       r = mkCaseResult true (Some "E")
             (Some "Second Leadership Behavior Report + Written Warning for Leader")
             (Some "Critical")
             (Some "Leader has failed to follow procedures again within warning period. Issue written warning.")
             ld None None None None) /\
    (forall db' r',
       run (evaluateCaseE ld) db' = inr (r', db') ->
       applies r = true -> applies r' = true -> r' = r).
Proof.
  intros Hf. unfold evaluateCaseE.
  rewrite run_bind, run_pool_query, Hf, run_if, !run_ret.
  pose proof (select_active_reports_nonempty ld db) as Hne.
  destruct (Nat.leb_spec 1 (length (select_active_reports ld db))) as [Hlen | Hlen];
    eexists; (split; [reflexivity |]); cbn [applies not_applicable].
  - split; [split; [intros _; apply Hne, Hlen | reflexivity] |].
    split; [split; [intros _; exact Hlen | reflexivity] |].
    split; [discriminate |].
    split; [reflexivity |].
    intros db' r'. rewrite run_bind, run_pool_query.
    destruct (fault db'); [discriminate |].
    rewrite run_if, !run_ret.
    destruct (Nat.leb 1 (length (select_active_reports ld db')));
      intros H _ Ha; injection H as <- ; [reflexivity | discriminate].
  - split; [split; [discriminate | intros H; apply Hne in H; lia] |].
    split; [split; [discriminate | lia] |].
    split; [reflexivity |].
    split; discriminate.
Qed.

Lemma evaluateCaseE_applies_iff_witness :
  exists r0 r1 r3,
    run (evaluateCaseE Sample.leader) SampleDb.no_active_report =
      inr (r0, SampleDb.no_active_report) /\
    run (evaluateCaseE Sample.leader) SampleDb.one_active_report =
      inr (r1, SampleDb.one_active_report) /\
    run (evaluateCaseE Sample.leader) SampleDb.three_active_reports =
      inr (r3, SampleDb.three_active_reports) /\
    applies r0 = false /\ applies r1 = true /\ r3 = r1 /\
    priority r1 = Some "Critical".
Proof.
  destruct (evaluateCaseE_applies_iff Sample.leader SampleDb.no_active_report eq_refl)
    as (r0 & Hrun0 & _ & Hlen0 & _).
  destruct (evaluateCaseE_applies_iff Sample.leader SampleDb.one_active_report eq_refl)
    as (r1 & Hrun1 & _ & Hlen1 & _ & HE1 & Hcap).
  destruct (evaluateCaseE_applies_iff Sample.leader SampleDb.three_active_reports eq_refl)
    as (r3 & Hrun3 & _ & Hlen3 & _).
  assert (H1 : applies r1 = true) by (apply Hlen1; vm_compute; lia).
  assert (H3 : applies r3 = true) by (apply Hlen3; vm_compute; lia).
  exists r0, r1, r3.
  repeat (split; [assumption |]).
  split.
  { destruct (applies r0); [| reflexivity].
    assert (Hc : (1 <= 0)%nat) by (apply (proj1 Hlen0 eq_refl)). lia. }
  split; [exact H1 |].
  split; [exact (Hcap _ _ Hrun3 H1 H3) |].
  rewrite (HE1 H1). reflexivity.
Defined.

(** ** Recording a warning *)

Lemma run_get db : run (get : Pg Database) db = inr (db, db).
Proof. reflexivity. Qed.

Lemma run_pool_insert {A} (insert : Database -> sum string (Database * A)) db :
  run (pool_insert insert) db =
  match fault db with
  | Some e => inl e
  | None =>
      match insert db with
      | inl e => inl e
      | inr (db', a) => inr (a, db')
      end
  end.
Proof.
  unfold run, pool_insert. cbn. destruct (fault db); [reflexivity |].
  destruct (insert db) as [e | [db' a]]; reflexivity.
Qed.

(** What [recordWarning] stores for a Verbal or Written warning: the issue
    date is the supplied one (today when none is supplied), and the
    expiration date is counted from the day of recording. *)
Lemma sql_date_new_Date t d :
  sql_date (new_Date t) = inr d -> d = date_of_ms t.
Proof.
  unfold new_Date. destruct (Z.abs t <=? MAX_TIME_MS); cbn [sql_date]; [| discriminate].
  destruct ((PG_DATE_MIN <=? date_of_ms t) && (date_of_ms t <? PG_DATE_END));
    [intros H; injection H as <-; reflexivity | discriminate].
Qed.

Lemma date_of_ms_add_days t d : date_of_ms (t + d * 24 * 60 * 60 * 1000) = date_of_ms t + d.
Proof.
  unfold date_of_ms.
  replace (t + d * 24 * 60 * 60 * 1000) with (t + d * MS_PER_DAY)
    by (unfold MS_PER_DAY; lia).
  apply Z.div_add. unfold MS_PER_DAY. lia.
Qed.

(** The own members of [WARNING_EXPIRATION] are 90, 180 and null. *)
Lemma WARNING_EXPIRATION_number k d :
  WARNING_EXPIRATION k = JNumber d ->
  (k = "Verbal" /\ d = 90) \/ (k = "Written" /\ d = 180).
Proof.
  unfold WARNING_EXPIRATION.
  destruct (String.eqb_spec k "Verbal") as [-> | _];
    [intros H; injection H as <-; auto |].
  destruct (String.eqb_spec k "Written") as [-> | _];
    [intros H; injection H as <-; auto |].
  destruct (String.eqb k "Coaching"); [discriminate |].
  destruct (existsb _ _); discriminate.
Qed.

(** The expiration date the server is handed, when it is handed one it can
    store. *)
Lemma expires_stored now ty e :
  on_value sql_date (expiresDate_of now ty) = inr e ->
  e = match ty with
      | Some k =>
          match WARNING_EXPIRATION k with
          | JNumber d => Some (date_of_ms now + d)
          | _ => None
          end
      | None => None
      end.
Proof.
  destruct ty as [k |]; [| intros H; injection H as <-; reflexivity].
  unfold expiresDate_of.
  assert (Hempty : WARNING_EXPIRATION "" = JUndefined) by reflexivity.
  destruct k as [| c k'];
    [rewrite Hempty; intros H; injection H as <-; reflexivity |].
  destruct (WARNING_EXPIRATION (String c k')) as [d | | |] eqn:E; cbn [truthy].
  - destruct (WARNING_EXPIRATION_number _ _ E) as [(_ & ->) | (_ & ->)];
      cbn [Z.eqb negb on_value];
      (destruct (sql_date (new_Date _)) as [err | day] eqn:Hd; [discriminate |]);
      intros H; injection H as <-;
      apply sql_date_new_Date in Hd; rewrite Hd, date_of_ms_add_days; reflexivity.
  - intros H; injection H as <-; reflexivity.
  - intros H; injection H as <-; reflexivity.
  - cbn [on_value sql_date]. discriminate.
Qed.

(** What a [recordWarning] that the server accepts does to the store. *)
Lemma run_recordWarning wd db :
  fault db = None ->
  stored_as_sent db wd ->
  exists row db',
    run (recordWarning wd) db = inr (id row, db') /\
    id row = warnings_id_seq db /\
    tbl_warnings db' = (tbl_warnings db ++ [row])%list /\
    clock_ms db' = clock_ms db /\ fault db' = None /\
    tbl_action_log db' = tbl_action_log db /\
    tbl_leadership_reports db' = tbl_leadership_reports db /\
    agent_email row = WarningData.agentEmail wd /\
    metric_type row = WarningData.metricType wd /\
    warning_type row = WarningData.warningType wd /\
    warning_level row = Some (warningLevel_of (WarningData.warningType wd)) /\
    status row = Some "Active" /\
    issue_date row =
      Some (date_of_ms (match WarningData.issuedDate wd with
                        | Some t => t
                        | None => clock_ms db
                        end)) /\
    expiration_date row =
      match WarningData.warningType wd with
      | Some k =>
          match WARNING_EXPIRATION k with
          | JNumber d => Some (CURRENT_DATE db + d)
          | _ => None
          end
      | None => None
      end.
Proof.
  intros Hf (Hlegacy & Hty & Hm & (v1 & H1) & (v2 & H2) & (v3 & H3) &
             (v4 & H4) & (v5 & H5) & (v6 & H6) & (v7 & H7)).
  cbv zeta in *. destruct Hlegacy as (prepared & Hprep & Hin).
  unfold recordWarning. rewrite run_bind, run_get. cbv zeta.
  rewrite run_pool_insert, Hf. unfold insert_warning. cbv zeta.
  rewrite Hprep, Hin, Hty, H1, Hm, H2, H3, H4, H5, H6, H7.
  unfold legacy_values in Hprep.
  destruct (sql_date (match WarningData.issuedDate wd with
                      | Some t => new_Date t
                      | None => new_Date (clock_ms db)
                      end)) as [err | issue_d] eqn:Hissue; [discriminate |].
  destruct (on_value sql_date (expiresDate_of (clock_ms db) (WarningData.warningType wd)))
    as [err | expires_d] eqn:Hexp; [discriminate |].
  injection Hprep as <-.
  apply expires_stored in Hexp.
  assert (Hday : issue_d = date_of_ms (match WarningData.issuedDate wd with
                                       | Some t => t
                                       | None => clock_ms db
                                       end)).
  { destruct (WarningData.issuedDate wd); apply sql_date_new_Date, Hissue. }
  eexists; eexists. split; [reflexivity |].
  cbn [id tbl_warnings clock_ms fault tbl_action_log tbl_leadership_reports
       agent_email metric_type warning_type warning_level status issue_date
       expiration_date Legacy.agent_email Legacy.action_log_id
       Legacy.warning_level Legacy.issue_date Legacy.expiration_date
       Legacy.status].
  rewrite Hday, Hexp. unfold CURRENT_DATE. repeat split. exact Hf.
Qed.

(** What [recordWarning] stores for a Verbal or Written warning: the issue
    date is the supplied one (today when none is supplied), and the
    expiration date is counted from the day of recording. *)
Lemma recordWarning_stores wd db kind days :
  fault db = None ->
  stored_as_sent db wd ->
  WarningData.warningType wd = Some kind ->
  WARNING_EXPIRATION kind = JNumber days ->
  exists db' row,
    run (recordWarning wd) db = inr (warnings_id_seq db, db') /\
    tbl_warnings db' = (tbl_warnings db ++ [row])%list /\
    status row = Some "Active" /\
    issue_date row =
      Some (date_of_ms (match WarningData.issuedDate wd with
                        | Some t => t
                        | None => clock_ms db
                        end)) /\
    expiration_date row = Some (CURRENT_DATE db + days).
Proof.
  intros Hf Hsent Hty Hexp.
  destruct (run_recordWarning wd db Hf Hsent) as
    (row & db' & Hrun & Hid & Htbl & _ & _ & _ & _ & _ & _ & _ & _ & Hst & Hi & He).
  exists db', row. rewrite <- Hid. split; [exact Hrun |].
  split; [exact Htbl |]. split; [exact Hst |]. split; [exact Hi |].
  rewrite He, Hty, Hexp. reflexivity.
Qed.

(** C8 (the code departs from the claim).  Recording on day 20000 a Verbal
    warning whose issue date is day 19900 stores issue date 19900 and
    expiration date 20090: 90 days after the day of recording, not 90 days
    after the issue date (day 19990). *)
Theorem recordWarning_expiration_counts_from_today :
  exists db' row,
    run (recordWarning SampleDb.backdated_verbal) SampleDb.empty = inr (1, db') /\
    tbl_warnings db' = [row] /\
    warning_type row = Some "Verbal" /\
    issue_date row = Some 19900 /\
    expiration_date row = Some 20090 /\
    expiration_date row <> option_map (fun d => d + 90) (issue_date row).
Proof.
  eexists; eexists. split; [reflexivity |].
  split; [reflexivity |].
  split; [reflexivity |].
  split; [vm_compute; reflexivity |].
  split; [vm_compute; reflexivity |].
  vm_compute. discriminate.
Qed.

Lemma expiresDate_of_Coaching now : expiresDate_of now (Some "Coaching") = None.
Proof. reflexivity. Qed.

(** * Further properties of the engine and of its callers *)

(** ** The ladder as a function of the two counts *)

Lemma spec_resolve_by_counts ws ag m wsd wed :
  spec_resolve ws ag m wsd wed =
  if Nat.leb 2 (countWarningsByType ws "Written")
  then with_metadata (evaluateCaseC ws) ag m wsd wed
  else if Nat.leb 2 (countWarningsByType ws "Verbal")
  then with_metadata (evaluateCaseB ws) ag m wsd wed
  else if Nat.eqb (countWarningsByType ws "Verbal") 1
  then with_metadata (evaluateCaseA ws) ag m wsd wed
  else first_result ag m wsd wed.
Proof.
  unfold spec_resolve, spec_first_match, spec_ladder. cbn [map find].
  rewrite evaluateCaseC_applies, evaluateCaseB_applies, evaluateCaseA_applies.
  destruct (Nat.leb 2 (countWarningsByType ws "Written")); [reflexivity |].
  destruct (Nat.leb 2 (countWarningsByType ws "Verbal")); [reflexivity |].
  destruct (Nat.eqb (countWarningsByType ws "Verbal") 1); reflexivity.
Qed.

Lemma spec_resolve_case ws ag m wsd wed :
  case (spec_resolve ws ag m wsd wed) =
  Some (case_of_counts (countWarningsByType ws "Verbal")
                       (countWarningsByType ws "Written")).
Proof.
  rewrite spec_resolve_by_counts. unfold case_of_counts.
  unfold evaluateCaseC, evaluateCaseB, evaluateCaseA. cbv zeta.
  destruct (Nat.leb 2 (countWarningsByType ws "Written")); [reflexivity |].
  destruct (Nat.leb 2 (countWarningsByType ws "Verbal")); [reflexivity |].
  destruct (Nat.eqb (countWarningsByType ws "Verbal") 1); reflexivity.
Qed.

Lemma spec_resolve_same_counts ws ws' ag m wsd wed :
  countWarningsByType ws "Verbal" = countWarningsByType ws' "Verbal" ->
  countWarningsByType ws "Written" = countWarningsByType ws' "Written" ->
  spec_resolve ws ag m wsd wed = spec_resolve ws' ag m wsd wed.
Proof.
  intros Hv Hw. rewrite !spec_resolve_by_counts.
  unfold evaluateCaseC, evaluateCaseB, evaluateCaseA. cbv zeta.
  rewrite Hv, Hw. reflexivity.
Qed.

Lemma case_of_counts_table v w :
  (case_of_counts v w = "C" <-> 2 <= w)%nat /\
  (case_of_counts v w = "B" <-> 2 <= v /\ w <= 1)%nat /\
  (case_of_counts v w = "A" <-> v = 1 /\ w <= 1)%nat /\
  (case_of_counts v w = "First" <-> v = 0 /\ w <= 1)%nat.
Proof.
  unfold case_of_counts.
  destruct (Nat.leb_spec 2 w), (Nat.leb_spec 2 v), (Nat.eqb_spec v 1);
    repeat split; intros; try discriminate; try lia;
    try (exfalso; lia).
Qed.

(** X1.  The case returned is a table over the number of active Verbal and
    Written warnings: C when Written >= 2; otherwise B when Verbal >= 2, A
    when Verbal = 1 and First when Verbal = 0, each of those three with
    Written at most 1. *)
Theorem generateRecommendation_decision_table ag m wsd wed db ws :
  run (getActiveWarnings ag m) db = inr (ws, db) ->
  exists r,
    run (generateRecommendation ag m wsd wed) db = inr (r, db) /\
    case r = Some (case_of_counts (countWarningsByType ws "Verbal")
                                  (countWarningsByType ws "Written")) /\
    (case r = Some "C" <-> 2 <= countWarningsByType ws "Written")%nat /\
    (case r = Some "B" <->
       2 <= countWarningsByType ws "Verbal" /\
       countWarningsByType ws "Written" <= 1)%nat /\
    (case r = Some "A" <->
       countWarningsByType ws "Verbal" = 1 /\
       countWarningsByType ws "Written" <= 1)%nat /\
    (case r = Some "First" <->
       countWarningsByType ws "Verbal" = 0 /\
       countWarningsByType ws "Written" <= 1)%nat.
Proof.
  intros Hread. apply run_getActiveWarnings in Hread as (Hf & Hws & _).
  rewrite run_generateRecommendation, Hf, <- Hws.
  eexists. split; [reflexivity |].
  rewrite spec_resolve_case.
  destruct (case_of_counts_table (countWarningsByType ws "Verbal")
              (countWarningsByType ws "Written")) as (HC & HB & HA & HF).
  split; [reflexivity |].
  assert (Hinj : forall s t : string, Some s = Some t <-> s = t)
    by (intros s t; split; [intros E; injection E; auto | intros ->; reflexivity]).
  rewrite !Hinj. tauto.
Qed.

Lemma generateRecommendation_decision_table_witness :
  exists r,
    run (generateRecommendation Sample.agent Sample.QA None None)
        SampleX.one_verbal_one_written = inr (r, SampleX.one_verbal_one_written) /\
    case r = Some "A".
Proof.
  destruct (generateRecommendation_decision_table Sample.agent Sample.QA None None
              SampleX.one_verbal_one_written
              (select_active_warnings Sample.agent Sample.QA SampleX.one_verbal_one_written)
              eq_refl)
    as (r & Hrun & _ & _ & _ & HA & _).
  exists r. split; [exact Hrun |].
  apply HA. vm_compute. split; [reflexivity | lia].
Defined.

(** X2.  The whole result depends on the store only through the number of
    active Verbal and of active Written warnings: two reads with the same
    two counts get the same result, so Coaching warnings and rows of any
    other type never change a recommendation. *)
Theorem generateRecommendation_depends_on_counts ag m wsd wed db1 ws1 db2 ws2 :
  run (getActiveWarnings ag m) db1 = inr (ws1, db1) ->
  run (getActiveWarnings ag m) db2 = inr (ws2, db2) ->
  countWarningsByType ws1 "Verbal" = countWarningsByType ws2 "Verbal" ->
  countWarningsByType ws1 "Written" = countWarningsByType ws2 "Written" ->
  exists r,
    run (generateRecommendation ag m wsd wed) db1 = inr (r, db1) /\
    run (generateRecommendation ag m wsd wed) db2 = inr (r, db2).
Proof.
  intros H1 H2 Hv Hw.
  apply run_getActiveWarnings in H1 as (Hf1 & Hws1 & _).
  apply run_getActiveWarnings in H2 as (Hf2 & Hws2 & _).
  rewrite !run_generateRecommendation, Hf1, Hf2, <- Hws1, <- Hws2.
  exists (spec_resolve ws1 ag m wsd wed). split; [reflexivity |].
  rewrite (spec_resolve_same_counts ws1 ws2) by assumption. reflexivity.
Qed.

Lemma generateRecommendation_depends_on_counts_witness :
  exists r,
    run (generateRecommendation Sample.agent Sample.QA None None)
        SampleDb.one_verbal = inr (r, SampleDb.one_verbal) /\
    run (generateRecommendation Sample.agent Sample.QA None None)
        SampleX.one_verbal_two_coaching = inr (r, SampleX.one_verbal_two_coaching).
Proof.
  apply (generateRecommendation_depends_on_counts Sample.agent Sample.QA None None
           SampleDb.one_verbal
           (select_active_warnings Sample.agent Sample.QA SampleDb.one_verbal)
           SampleX.one_verbal_two_coaching
           (select_active_warnings Sample.agent Sample.QA SampleX.one_verbal_two_coaching));
    reflexivity.
Defined.

(** ** Reads with a missing key *)

Lemma in_order_by_where {R} (key : R -> option Z) (c : R -> Sql.tv) rows r :
  In r (Sql.order_by_desc key (Sql.where_ c rows)) <->
  In r rows /\ Sql.holds (c r) = true.
Proof.
  unfold Sql.where_. split; intros H.
  - apply (Permutation_in _ (order_by_desc_perm key _)) in H.
    apply filter_In in H. exact H.
  - apply (Permutation_in _ (Permutation_sym (order_by_desc_perm key _))).
    apply filter_In. exact H.
Qed.

Lemma select_active_warnings_missing_key ag m db :
  ag = None \/ m = None -> select_active_warnings ag m db = [].
Proof.
  intros Hkey. unfold select_active_warnings.
  replace (Sql.where_ _ (tbl_warnings db)) with (@nil WarningRow); [reflexivity |].
  symmetry. apply filter_none, Forall_forall. intros w _.
  unfold active_warning_cond. rewrite !holds_and3.
  destruct Hkey as [-> | ->].
  - destruct (agent_email w); reflexivity.
  - destruct (metric_type w); cbn; rewrite ?andb_false_r; reflexivity.
Qed.

(** X3.  When the agent e-mail or the metric type is missing from the
    request, the SQL comparison with NULL keeps no row: the read is empty
    whatever the store holds, the recommendation is the "First" fallback,
    and GET /api/warnings/:agentEmail/active without [metricType] answers
    200 with an empty list. *)
Theorem missing_key_reads_nothing ag m db :
  ag = None \/ m = None ->
  fault db = None ->
  run (getActiveWarnings ag m) db = inr ([], db) /\
  (forall wsd wed,
     run (generateRecommendation ag m wsd wed) db =
     inr (first_result ag m wsd wed, db)) /\
  (forall a, get_active_warnings a None db = (Http.mk 200 (Http.Warnings []), db)).
Proof.
  intros Hkey Hf.
  split; [apply run_getActiveWarnings; rewrite select_active_warnings_missing_key; auto |].
  split.
  - intros wsd wed. rewrite run_generateRecommendation, Hf.
    rewrite select_active_warnings_missing_key by exact Hkey. reflexivity.
  - intros a. unfold get_active_warnings, respond, getActiveWarnings.
    rewrite run_pool_query, Hf.
    rewrite select_active_warnings_missing_key by auto. reflexivity.
Qed.

Lemma missing_key_reads_nothing_witness :
  run (generateRecommendation Sample.agent None None None)
      SampleDb.two_written_three_verbal =
  inr (first_result Sample.agent None None None, SampleDb.two_written_three_verbal).
Proof.
  apply (missing_key_reads_nothing Sample.agent None SampleDb.two_written_three_verbal);
    [right; reflexivity | reflexivity].
Defined.

(** ** The list endpoints and the engine's reads *)

(** X4.  Every row GET /api/warnings/:agentEmail/active sends is also sent
    by GET /api/warnings/:agentEmail for the same request; with a
    [metricType] given, the active rows are exactly the listed rows that
    are active on the evaluation date. *)
Theorem active_warnings_among_listed a m db :
  fault db = None ->
  exists listed active,
    get_warnings a m db = (Http.mk 200 (Http.Warnings listed), db) /\
    get_active_warnings a m db = (Http.mk 200 (Http.Warnings active), db) /\
    (forall w, In w active -> In w listed) /\
    (truthy_text m = true ->
     forall w, In w active <->
               In w listed /\ spec_is_active (CURRENT_DATE db) w = true).
Proof.
  intros Hf.
  exists (select_warnings a m db), (select_active_warnings (Some a) m db).
  unfold get_warnings, get_active_warnings, respond, getActiveWarnings.
  rewrite !run_pool_query, Hf.
  split; [reflexivity |]. split; [reflexivity |].
  unfold select_warnings, select_active_warnings.
  split.
  - intros w. rewrite !in_order_by_where. intros (Hin & Hc).
    split; [exact Hin |].
    unfold active_warning_cond in Hc. rewrite !holds_and3, !andb_true_iff in Hc.
    destruct Hc as (((Ha & Hm) & _) & _).
    destruct (truthy_text m); [rewrite holds_and3, Ha, Hm; reflexivity | exact Ha].
  - intros Hm w. rewrite !in_order_by_where, Hm.
    destruct m as [mt |]; [| discriminate].
    rewrite active_warning_cond_holds. unfold spec_counts_toward.
    rewrite holds_and3, !andb_true_iff.
    assert (Ha : Sql.holds (Sql.eq_text (agent_email w) (Some a)) =
                 strict_eq (agent_email w) a)
      by (destruct (agent_email w) as [x |]; cbn; [destruct (String.eqb x a) |]; reflexivity).
    assert (Hmt : Sql.holds (Sql.eq_text (metric_type w) (Some mt)) =
                  strict_eq (metric_type w) mt)
      by (destruct (metric_type w) as [x |]; cbn; [destruct (String.eqb x mt) |]; reflexivity).
    rewrite Ha, Hmt. tauto.
Qed.

Lemma active_warnings_among_listed_witness :
  exists listed active,
    get_warnings "agent@onq.global" Sample.QA SampleDb.five_expired_written =
      (Http.mk 200 (Http.Warnings listed), SampleDb.five_expired_written) /\
    get_active_warnings "agent@onq.global" Sample.QA SampleDb.five_expired_written =
      (Http.mk 200 (Http.Warnings active), SampleDb.five_expired_written) /\
    length listed = 5%nat /\ active = [].
Proof.
  destruct (active_warnings_among_listed "agent@onq.global" Sample.QA
              SampleDb.five_expired_written eq_refl)
    as (listed & active & Hl & Ha & _).
  exists listed, active. split; [exact Hl |]. split; [exact Ha |].
  apply (f_equal (fun p => Http.body (fst p))) in Hl, Ha.
  vm_compute in Hl, Ha. injection Hl as <-. injection Ha as <-.
  split; reflexivity.
Defined.

(** X5.  Every report that Case E counts for a leader is among the reports
    GET /api/leadership-reports lists for that leader with activeOnly=true;
    the listing does not look at the expiration date, so it shows as well
    the reports of the leader that are switched on but have expired, which
    Case E does not count. *)
Theorem case_E_reports_among_listed ld db :
  fault db = None ->
  exists listed,
    get_leadership_reports ld (Some "true") db =
      (Http.mk 200 (Http.Reports listed), db) /\
    (forall rep, In rep (select_active_reports ld db) -> In rep listed) /\
    (truthy_text ld = true ->
     forall rep, In rep listed <->
       In rep (select_active_reports ld db) \/
       (In rep (tbl_leadership_reports db) /\
        for_agent (leader_email rep) ld /\ is_active rep = Some true /\
        exists e, expires_date rep = Some e /\ e < CURRENT_DATE db)).
Proof.
  intros Hf. exists (select_leadership_reports ld (Some "true") db).
  unfold get_leadership_reports, respond. rewrite run_pool_query, Hf.
  split; [reflexivity |].
  assert (Hact : forall rep,
             Sql.holds (Sql.eq_bool (is_active rep) (Some true)) = true <->
             is_active rep = Some true).
  { intros rep. destruct (is_active rep) as [[|] |]; cbn; split; congruence. }
  unfold select_leadership_reports, select_active_reports.
  cbn [strict_eq String.eqb Ascii.eqb Bool.eqb].
  split.
  - intros rep. rewrite !in_order_by_where. intros (Hin & Hc).
    split; [exact Hin |].
    apply active_report_cond_holds in Hc. destruct Hc as (Hl & Ha & _).
    rewrite !holds_and3, !andb_true_iff. split; [split; [reflexivity |] |].
    + destruct (truthy_text ld); [apply holds_eq_text, Hl | reflexivity].
    + apply Hact, Ha.
  - intros Ht rep. rewrite !in_order_by_where, Ht.
    rewrite active_report_cond_holds. unfold active_report.
    rewrite !holds_and3, !andb_true_iff, holds_eq_text, Hact.
    split.
    + intros (Hin & (_ & Hl) & Ha).
      destruct (expires_date rep) as [e |] eqn:He.
      * destruct (Z_lt_le_dec e (CURRENT_DATE db)) as [Hlt | Hle].
        -- right. repeat split; auto. exists e. auto.
        -- left. repeat split; auto. right. exists e. auto.
      * left. repeat split; auto.
    + intros [(Hin & Hl & Ha & _) | (Hin & Hl & Ha & _)]; repeat split; auto.
Qed.

Lemma case_E_reports_among_listed_witness :
  exists listed,
    get_leadership_reports Sample.leader (Some "true") SampleX.mixed =
      (Http.mk 200 (Http.Reports listed), SampleX.mixed) /\
    length listed = 2%nat /\
    length (select_active_reports Sample.leader SampleX.mixed) = 1%nat.
Proof.
  destruct (case_E_reports_among_listed Sample.leader SampleX.mixed eq_refl)
    as (listed & Hl & _).
  exists listed. split; [exact Hl |].
  apply (f_equal (fun p => Http.body (fst p))) in Hl.
  vm_compute in Hl. injection Hl as <-. split; reflexivity.
Defined.



(** ** Recording, then reading *)

Lemma CURRENT_DATE_days_later k db :
  CURRENT_DATE (days_later k db) = CURRENT_DATE db + k.
Proof.
  unfold CURRENT_DATE, days_later, date_of_ms. cbn [clock_ms].
  apply Z.div_add. unfold MS_PER_DAY. lia.
Qed.

Lemma count_active_by_filter a m db kind :
  countWarningsByType (select_active_warnings (Some a) (Some m) db) kind =
  length (filter (fun w => spec_counts_toward (CURRENT_DATE db) a m w &&
                           strict_eq (warning_type w) kind)
            (tbl_warnings db)).
Proof.
  unfold countWarningsByType. rewrite <- filter_and.
  apply Permutation_length, filter_perm, select_active_warnings_perm.
Qed.

(** Counting after one more row has been appended, [k] days on. *)
Lemma count_active_after_insert a m db db' row k kind :
  tbl_warnings db' = (tbl_warnings db ++ [row])%list ->
  clock_ms db' = clock_ms db ->
  countWarningsByType (select_active_warnings (Some a) (Some m) (days_later k db')) kind =
  (countWarningsByType (select_active_warnings (Some a) (Some m) (days_later k db)) kind +
   if spec_counts_toward (CURRENT_DATE db + k) a m row &&
      strict_eq (warning_type row) kind
   then 1 else 0)%nat.
Proof.
  intros Htbl Hclock. rewrite !count_active_by_filter.
  rewrite !CURRENT_DATE_days_later.
  assert (Hd : CURRENT_DATE db' = CURRENT_DATE db)
    by (unfold CURRENT_DATE; rewrite Hclock; reflexivity).
  rewrite Hd. cbn [days_later tbl_warnings]. rewrite Htbl.
  rewrite filter_app, length_app. cbn [filter].
  destruct (spec_counts_toward (CURRENT_DATE db + k) a m row &&
            strict_eq (warning_type row) kind); reflexivity.
Qed.

Lemma days_later_0 a m db :
  select_active_warnings (Some a) (Some m) (days_later 0 db) =
  select_active_warnings (Some a) (Some m) db.
Proof.
  unfold select_active_warnings. rewrite CURRENT_DATE_days_later, Z.add_0_r.
  reflexivity.
Qed.

Lemma strict_eq_refl s : strict_eq (Some s) s = true.
Proof. apply strict_eq_iff. reflexivity. Qed.

(** The counts after a Verbal or Written warning has been stored as sent. *)
Lemma recorded_warning_count wd db a m kind d :
  fault db = None ->
  stored_as_sent db wd ->
  WarningData.agentEmail wd = Some a ->
  WarningData.metricType wd = Some m ->
  WarningData.warningType wd = Some kind ->
  WARNING_EXPIRATION kind = JNumber d ->
  exists row db',
    run (recordWarning wd) db = inr (id row, db') /\
    fault db' = None /\
    forall k other,
      countWarningsByType
        (select_active_warnings (Some a) (Some m) (days_later k db')) other =
      (countWarningsByType
         (select_active_warnings (Some a) (Some m) (days_later k db)) other +
       if (k <=? d)%Z && String.eqb kind other then 1 else 0)%nat.
Proof.
  intros Hf Hsent Ha Hm Hty Hexp.
  destruct (run_recordWarning wd db Hf Hsent) as
    (row & db' & Hrun & _ & Htbl & Hck & Hf' & _ & _ & Hra & Hrm & Hrt & _ & Hst & _ & Hre).
  exists row, db'. split; [exact Hrun |]. split; [exact Hf' |].
  intros k other.
  rewrite (count_active_after_insert a m db db' row k other Htbl Hck).
  f_equal.
  unfold spec_counts_toward, spec_is_active.
  rewrite Hra, Hrm, Hrt, Hst, Hre, Ha, Hm, Hty, Hexp, !strict_eq_refl.
  cbn [andb strict_eq].
  replace (CURRENT_DATE db + k <=? CURRENT_DATE db + d) with (k <=? d);
    [reflexivity |].
  destruct (Z.leb_spec k d), (Z.leb_spec (CURRENT_DATE db + k) (CURRENT_DATE db + d));
    try reflexivity; lia.
Qed.

(** X7.  A Verbal or Written warning that the server stores as it was sent
    is counted for its agent and metric by the next read at once and on
    each later day up to the 90th (Verbal) or 180th (Written) day after the
    day of recording; from the following day on it no longer counts.  The
    supplied issue date plays no part in this. *)
Theorem recorded_warning_lifetime wd db a m kind d :
  fault db = None ->
  stored_as_sent db wd ->
  WarningData.agentEmail wd = Some a ->
  WarningData.metricType wd = Some m ->
  WarningData.warningType wd = Some kind ->
  WARNING_EXPIRATION kind = JNumber d ->
  exists wid db',
    run (recordWarning wd) db = inr (wid, db') /\
    forall k, 0 <= k ->
      countWarningsByType
        (select_active_warnings (Some a) (Some m) (days_later k db')) kind =
      (countWarningsByType
         (select_active_warnings (Some a) (Some m) (days_later k db)) kind +
       if (k <=? d)%Z then 1 else 0)%nat.
Proof.
  intros Hf Hsent Ha Hm Hty Hexp.
  destruct (recorded_warning_count wd db a m kind d Hf Hsent Ha Hm Hty Hexp)
    as (row & db' & Hrun & _ & Hcount).
  exists (id row), db'. split; [exact Hrun |].
  intros k _. rewrite Hcount, String.eqb_refl, andb_true_r. reflexivity.
Qed.

Lemma backdated_verbal_stored_as_sent :
  stored_as_sent SampleDb.empty SampleDb.backdated_verbal.
Proof.
  split; [eexists; split; reflexivity |].
  repeat split; try reflexivity; eexists; reflexivity.
Defined.

Lemma new_warning_stored_as_sent kind db :
  server db = Sample.accepting ->
  clock_ms db = Sample.noon 20000 ->
  kind = None \/ kind = Some "Verbal" \/ kind = Some "Written" \/ kind = Some "Coaching" ->
  stored_as_sent db (SampleX.new_warning kind).
Proof.
  intros Hs Hc Hk. unfold stored_as_sent. rewrite Hs, Hc. cbv zeta.
  destruct Hk as [-> | [-> | [-> | ->]]];
    (split; [eexists; split; reflexivity |]);
    repeat split; try reflexivity; eexists; reflexivity.
Defined.

Lemma recorded_warning_lifetime_witness :
  exists wid db',
    run (recordWarning SampleDb.backdated_verbal) SampleDb.empty = inr (wid, db') /\
    countWarningsByType
      (select_active_warnings Sample.agent Sample.QA (days_later 90 db')) "Verbal" = 1%nat /\
    countWarningsByType
      (select_active_warnings Sample.agent Sample.QA (days_later 91 db')) "Verbal" = 0%nat.
Proof.
  destruct (recorded_warning_lifetime SampleDb.backdated_verbal SampleDb.empty
              "agent@onq.global" "QA" "Verbal" 90) as (wid & db' & Hrun & Hcount).
  - reflexivity.
  - exact backdated_verbal_stored_as_sent.
  - reflexivity.
  - reflexivity.
  - reflexivity.
  - reflexivity.
  - exists wid, db'. split; [exact Hrun |].
    split; [apply (Hcount 90) | apply (Hcount 91)]; lia.
Defined.

Lemma WARNING_EXPIRATION_no_number k :
  WARNING_EXPIRATION k = JNull \/ WARNING_EXPIRATION k = JUndefined ->
  strict_eq (Some k) "Verbal" = false /\ strict_eq (Some k) "Written" = false /\
  (WARNING_EXPIRATION k = JUndefined -> strict_eq (Some k) "Coaching" = false).
Proof.
  unfold WARNING_EXPIRATION. cbn [strict_eq].
  destruct (String.eqb k "Verbal"); [intros [H | H]; discriminate |].
  destruct (String.eqb k "Written"); [intros [H | H]; discriminate |].
  destruct (String.eqb k "Coaching"); [| auto].
  intros _. repeat split. discriminate.
Qed.

(** X8.  A warning of kind Coaching, of an unknown kind or of no kind at
    all that the server stores as it was sent has no expiration date:
    every later read of the agent's active warnings returns it, and it
    never changes the Verbal or the Written count.  Its [warning_level] is
    0 for Coaching and otherwise 1, the level of a Verbal warning. *)
Theorem warning_without_duration_never_expires wd db a m :
  fault db = None ->
  stored_as_sent db wd ->
  WarningData.agentEmail wd = Some a ->
  WarningData.metricType wd = Some m ->
  (forall k, WarningData.warningType wd = Some k ->
             WARNING_EXPIRATION k = JNull \/ WARNING_EXPIRATION k = JUndefined) ->
  exists row db',
    run (recordWarning wd) db = inr (id row, db') /\
    expiration_date row = None /\
    warning_level row =
      Some (if strict_eq (WarningData.warningType wd) "Coaching" then 0 else 1) /\
    (forall k, In row (select_active_warnings (Some a) (Some m) (days_later k db'))) /\
    (forall k kind, kind = "Verbal" \/ kind = "Written" ->
       countWarningsByType
         (select_active_warnings (Some a) (Some m) (days_later k db')) kind =
       countWarningsByType
         (select_active_warnings (Some a) (Some m) (days_later k db)) kind).
Proof.
  intros Hf Hsent Ha Hm Hty.
  destruct (run_recordWarning wd db Hf Hsent) as
    (row & db' & Hrun & _ & Htbl & Hck & _ & _ & _ & Hra & Hrm & Hrt & Hlv & Hst & _ & Hre).
  assert (Hnone : expiration_date row = None).
  { rewrite Hre. destruct (WarningData.warningType wd) as [k |]; [| reflexivity].
    destruct (Hty k eq_refl) as [E | E]; rewrite E; reflexivity. }
  assert (Hkind : strict_eq (warning_type row) "Verbal" = false /\
                  strict_eq (warning_type row) "Written" = false /\
                  warningLevel_of (WarningData.warningType wd) =
                  if strict_eq (WarningData.warningType wd) "Coaching" then 0 else 1).
  { rewrite Hrt. unfold warningLevel_of.
    destruct (WarningData.warningType wd) as [k |]; [| repeat split].
    destruct (WARNING_EXPIRATION_no_number k (Hty k eq_refl)) as (Hv & Hw & _).
    rewrite Hw. auto. }
  destruct Hkind as (Hv & Hw & Hlevel).
  exists row, db'. split; [exact Hrun |]. split; [exact Hnone |].
  split; [rewrite Hlv, Hlevel; reflexivity |].
  split.
  - intros k. unfold select_active_warnings. apply in_order_by_where.
    cbn [days_later tbl_warnings]. rewrite Htbl.
    split; [apply in_or_app; right; left; reflexivity |].
    rewrite active_warning_cond_holds. unfold spec_counts_toward, spec_is_active.
    rewrite Hra, Hrm, Hst, Hnone, Ha, Hm, !strict_eq_refl. reflexivity.
  - intros k kind Hk.
    rewrite (count_active_after_insert a m db db' row k kind Htbl Hck).
    destruct Hk as [-> | ->]; rewrite ?Hv, ?Hw, andb_false_r; lia.
Qed.

Lemma warning_without_duration_never_expires_witness :
  exists row db',
    run (recordWarning (SampleX.new_warning None)) SampleDb.one_verbal = inr (id row, db') /\
    warning_level row = Some 1 /\ expiration_date row = None /\
    In row (select_active_warnings Sample.agent Sample.QA (days_later 100000 db')) /\
    countWarningsByType
      (select_active_warnings Sample.agent Sample.QA db') "Verbal" = 1%nat.
Proof.
  destruct (warning_without_duration_never_expires (SampleX.new_warning None)
              SampleDb.one_verbal "agent@onq.global" "QA")
    as (row & db' & Hrun & Hexp & Hlv & Hin & Hcount).
  - reflexivity.
  - apply new_warning_stored_as_sent; auto.
  - reflexivity.
  - reflexivity.
  - intros k H. discriminate H.
  - exists row, db'. split; [exact Hrun |]. split; [exact Hlv |].
    split; [exact Hexp |]. split; [apply Hin |].
    unfold Sample.agent, Sample.QA.
    rewrite <- (days_later_0 "agent@onq.global" "QA" db').
    rewrite (Hcount 0 "Verbal") by auto. reflexivity.
Defined.

(** ** Recording, then evaluating *)

Lemma severity_case_of_counts v w :
  severity (Some (case_of_counts v w)) =
  if Nat.leb 2 w then 3%nat
  else if Nat.leb 2 v then 2%nat
  else if Nat.eqb v 1 then 1%nat else 0%nat.
Proof.
  unfold case_of_counts.
  destruct (Nat.leb 2 w); [reflexivity |].
  destruct (Nat.leb 2 v); [reflexivity |].
  destruct (Nat.eqb v 1); reflexivity.
Qed.

Lemma severity_monotone v w v' w' :
  (v <= v')%nat -> (w <= w')%nat ->
  (severity (Some (case_of_counts v w)) <= severity (Some (case_of_counts v' w')))%nat.
Proof.
  intros Hv Hw. rewrite !severity_case_of_counts.
  destruct (Nat.leb_spec 2 w), (Nat.leb_spec 2 w'),
    (Nat.leb_spec 2 v), (Nat.leb_spec 2 v'),
    (Nat.eqb_spec v 1), (Nat.eqb_spec v' 1); lia.
Qed.

(** What a successful [recordWarning] does to the table, whatever the
    server made of the values. *)
Lemma recordWarning_appends wd db wid db' :
  run (recordWarning wd) db = inr (wid, db') ->
  exists row,
    tbl_warnings db' = (tbl_warnings db ++ [row])%list /\
    clock_ms db' = clock_ms db /\ fault db' = None /\ fault db = None.
Proof.
  unfold recordWarning. rewrite run_bind, run_get. cbv zeta.
  rewrite run_pool_insert.
  destruct (fault db) as [e |] eqn:Hf; [discriminate |].
  destruct (insert_warning _ _ _ _ db) as [e | [db1 wid1]] eqn:Hins; [discriminate |].
  intros H. injection H as _ <-.
  unfold insert_warning in Hins. cbv zeta in Hins.
  repeat match type of Hins with
         | context [match ?c with inl _ => inl _ | inr _ => _ end] =>
             destruct c; [discriminate |]
         end.
  injection Hins as <- _. eexists.
  cbn [tbl_warnings clock_ms fault]. auto.
Qed.

(** X9.  Recording a warning never lowers a recommendation: for every agent
    and metric, the case generated after a successful [recordWarning] is at
    least as severe (First < A < B < C) as the case generated before it. *)
Theorem recording_never_deescalates wd db wid db' a m wsd wed :
  run (recordWarning wd) db = inr (wid, db') ->
  exists r r',
    run (generateRecommendation (Some a) (Some m) wsd wed) db = inr (r, db) /\
    run (generateRecommendation (Some a) (Some m) wsd wed) db' = inr (r', db') /\
    (severity (case r) <= severity (case r'))%nat.
Proof.
  intros Hrun.
  destruct (recordWarning_appends wd db wid db' Hrun) as (row & Htbl & Hck & Hf' & Hf).
  do 2 eexists.
  rewrite !run_generateRecommendation, Hf, Hf'.
  split; [reflexivity |]. split; [reflexivity |].
  rewrite !spec_resolve_case.
  rewrite <- (days_later_0 a m db'), <- (days_later_0 a m db).
  rewrite !(count_active_after_insert a m db db' row 0 _ Htbl Hck).
  apply severity_monotone; lia.
Qed.

Lemma recording_never_deescalates_witness :
  exists r r',
    run (recordWarning (SampleX.new_warning (Some "Verbal"))) SampleDb.one_verbal =
      inr (3, SampleX.after_recording (SampleX.new_warning (Some "Verbal")) SampleDb.one_verbal) /\
    run (generateRecommendation Sample.agent Sample.QA None None) SampleDb.one_verbal =
      inr (r, SampleDb.one_verbal) /\
    run (generateRecommendation Sample.agent Sample.QA None None)
        (SampleX.after_recording (SampleX.new_warning (Some "Verbal")) SampleDb.one_verbal) =
      inr (r', SampleX.after_recording (SampleX.new_warning (Some "Verbal")) SampleDb.one_verbal) /\
    (severity (case r) <= severity (case r'))%nat.
Proof.
  destruct (recording_never_deescalates (SampleX.new_warning (Some "Verbal"))
              SampleDb.one_verbal 3
              (SampleX.after_recording (SampleX.new_warning (Some "Verbal")) SampleDb.one_verbal)
              "agent@onq.global" "QA" None None eq_refl)
    as (r & r' & H1 & H2 & H3).
  exists r, r'. split; [reflexivity |]. auto.
Defined.

(** X10.  Recording a Verbal warning, stored as it was sent, for an agent
    and metric whose case is First or A moves the next recommendation for
    them one rung up: from First to A, from A to B. *)
Theorem recording_verbal_escalates wd db a m wsd wed r :
  fault db = None ->
  stored_as_sent db wd ->
  WarningData.agentEmail wd = Some a ->
  WarningData.metricType wd = Some m ->
  WarningData.warningType wd = Some "Verbal" ->
  run (generateRecommendation (Some a) (Some m) wsd wed) db = inr (r, db) ->
  exists wid db' r',
    run (recordWarning wd) db = inr (wid, db') /\
    run (generateRecommendation (Some a) (Some m) wsd wed) db' = inr (r', db') /\
    (case r = Some "First" -> case r' = Some "A") /\
    (case r = Some "A" -> case r' = Some "B").
Proof.
  intros Hf Hsent Ha Hm Hty Hgen.
  destruct (recorded_warning_count wd db a m "Verbal" 90 Hf Hsent Ha Hm Hty eq_refl)
    as (row & db' & Hrun & Hf' & Hcount).
  exists (id row), db'. eexists. split; [exact Hrun |].
  rewrite run_generateRecommendation, Hf in Hgen. injection Hgen as <-.
  rewrite run_generateRecommendation, Hf'. split; [reflexivity |].
  rewrite !spec_resolve_case.
  rewrite <- (days_later_0 a m db'), <- (days_later_0 a m db).
  rewrite !Hcount. cbn [Z.leb Z.compare andb String.eqb Ascii.eqb Bool.eqb].
  rewrite Nat.add_0_r.
  set (v := countWarningsByType (select_active_warnings (Some a) (Some m) (days_later 0 db)) "Verbal").
  set (w := countWarningsByType (select_active_warnings (Some a) (Some m) (days_later 0 db)) "Written").
  assert (Hinj : forall s t : string, Some s = Some t <-> s = t)
    by (intros s t; split; [intros E; injection E; auto | intros ->; reflexivity]).
  rewrite !Hinj.
  destruct (case_of_counts_table v w) as (_ & _ & HA & HF).
  destruct (case_of_counts_table (v + 1) w) as (_ & HB' & HA' & _).
  split; intros H.
  - apply HA'. apply HF in H. lia.
  - apply HB'. apply HA in H. lia.
Qed.

Lemma recording_verbal_escalates_witness :
  exists wid db' r',
    run (recordWarning (SampleX.new_warning (Some "Verbal"))) SampleDb.empty =
      inr (wid, db') /\
    run (generateRecommendation Sample.agent Sample.QA None None) db' = inr (r', db') /\
    case r' = Some "A".
Proof.
  destruct (recording_verbal_escalates (SampleX.new_warning (Some "Verbal"))
              SampleDb.empty "agent@onq.global" "QA" None None
              (first_result Sample.agent Sample.QA None None))
    as (wid & db' & r' & Hrun & Hgen & HF & _).
  - reflexivity.
  - apply new_warning_stored_as_sent; auto.
  - reflexivity.
  - reflexivity.
  - reflexivity.
  - reflexivity.
  - exists wid, db', r'. split; [exact Hrun |]. split; [exact Hgen |].
    apply HF. reflexivity.
Defined.

(** ** Case D and the store *)

(** X11.  With at most two underperforming weeks [evaluateCaseD] answers
    "does not apply" without consulting the store, so it answers even when
    the store rejects every query; with more than two it needs the store
    and passes the store's error on. *)
Theorem evaluateCaseD_queries_only_when_needed ag ld weeks db :
  ((length (filter underperforming weeks) <= 2)%nat ->
   run (evaluateCaseD ag ld weeks) db = inr (not_applicable, db)) /\
  ((2 < length (filter underperforming weeks))%nat ->
   forall e, fault db = Some e -> run (evaluateCaseD ag ld weeks) db = inl e).
Proof.
  unfold evaluateCaseD. cbv zeta. split; intros Hlen.
  - destruct (Nat.leb_spec (length (filter underperforming weeks)) 2); [| lia].
    apply run_ret.
  - intros e Hf.
    destruct (Nat.leb_spec (length (filter underperforming weeks)) 2); [lia |].
    destruct (filter underperforming weeks) as [| first rest]; [cbn in Hlen; lia |].
    rewrite run_bind, run_checkLeaderAction, Hf. reflexivity.
Qed.

Lemma evaluateCaseD_queries_only_when_needed_witness :
  run (evaluateCaseD Sample.agent Sample.leader
         [Sample.low_week 19970; Sample.ok_week 19977; Sample.low_week 19984])
      (SampleX.unreachable SampleDb.empty) =
    inr (not_applicable, SampleX.unreachable SampleDb.empty) /\
  run (evaluateCaseD Sample.agent Sample.leader SampleDb.weeks)
      (SampleX.unreachable SampleDb.empty) = inl "connect ECONNREFUSED".
Proof.
  split.
  - apply (evaluateCaseD_queries_only_when_needed Sample.agent Sample.leader
             [Sample.low_week 19970; Sample.ok_week 19977; Sample.low_week 19984]
             (SampleX.unreachable SampleDb.empty)).
    vm_compute. lia.
  - apply (evaluateCaseD_queries_only_when_needed Sample.agent Sample.leader
             SampleDb.weeks (SampleX.unreachable SampleDb.empty)).
    + vm_compute. lia.
    + reflexivity.
Defined.

(** X12.  [evaluateCaseD] never returns the Case D result.  Whatever it
    returns is [{ applies: false }], for a period with at most two
    underperforming weeks; with more than two and a store that answers, the
    server refuses the statement of [checkLeaderAction] (no operator
    compares the date column with the interval that [$2 - INTERVAL '7
    days'] is typed as) and [evaluateCaseD] throws that error. *)
Theorem evaluateCaseD_never_returns_case_D ag ld weeks db :
  (forall r db',
     run (evaluateCaseD ag ld weeks) db = inr (r, db') ->
     r = not_applicable /\ db' = db /\
     (length (filter underperforming weeks) <= 2)%nat) /\
  ((2 < length (filter underperforming weeks))%nat ->
   fault db = None ->
   run (evaluateCaseD ag ld weeks) db =
   inl "operator does not exist: date >= interval").
Proof.
  unfold evaluateCaseD. cbv zeta.
  destruct (Nat.leb_spec (length (filter underperforming weeks)) 2) as [Hle | Hgt].
  - split; [| lia].
    intros r db'. rewrite run_ret. intros H. injection H as <- <-. auto.
  - destruct (filter underperforming weeks) as [| first rest];
      [cbn in Hgt; lia |].
    rewrite run_bind, run_checkLeaderAction.
    split; [discriminate |].
    intros _ Hf. rewrite Hf. reflexivity.
Qed.

Lemma evaluateCaseD_never_returns_case_D_witness :
  run (evaluateCaseD Sample.agent Sample.leader SampleDb.weeks) SampleDb.mixed_actions =
  inl "operator does not exist: date >= interval".
Proof.
  apply (evaluateCaseD_never_returns_case_D Sample.agent Sample.leader
           SampleDb.weeks SampleDb.mixed_actions).
  - vm_compute. lia.
  - reflexivity.
Defined.

(** ** Saving a recommendation *)

(** X13.  Against the recommendations table as the schema declares it,
    [saveRecommendation] never stores a row: its INSERT names no
    [agent_id], a column that is NOT NULL and has no default, so every call
    is rejected, whatever the recommendation and whatever the server's
    input conversions accept. *)
Theorem saveRecommendation_always_rejected
  (varchar_in : nat -> string -> sum string string)
  (date_in : string -> sum string Z) (r : CaseResult) (st : Store) :
  exists e, runS (saveRecommendation varchar_in date_in r) st = inl e.
Proof.
  unfold runS, saveRecommendation. cbn.
  destruct (fault (engine_db st)) as [e |]; [exists e; reflexivity |].
  unfold insert_recommendation.
  repeat match goal with
         | |- context [convert ?f ?v] =>
             destruct (convert f v) as [e | ?]; [exists e; reflexivity |]
         end.
  cbn [not_null_violation rec_agent_id]. eexists. reflexivity.
Qed.

(** ** POST /api/warnings *)

(** X14.  When the server stores the posted warning as it was sent, POST
    /api/warnings answers 200 with the id of the row it stored, and GET
    /api/warnings/:agentEmail/active for that agent and metric then returns
    that row, with status 'Active' and the posted kind. *)
Theorem post_warnings_then_get_active wd db a m :
  fault db = None ->
  stored_as_sent db wd ->
  WarningData.agentEmail wd = Some a ->
  WarningData.metricType wd = Some m ->
  exists row db' rows,
    post_warnings wd db = (Http.mk 200 (Http.WarningRecorded (id row)), db') /\
    get_active_warnings a (Some m) db' = (Http.mk 200 (Http.Warnings rows), db') /\
    In row rows /\
    id row = warnings_id_seq db /\
    status row = Some "Active" /\
    warning_type row = WarningData.warningType wd.
Proof.
  intros Hf Hsent Ha Hm.
  destruct (run_recordWarning wd db Hf Hsent) as
    (row & db' & Hrun & Hid & Htbl & Hck & Hf' & _ & _ & Hra & Hrm & Hrt & _ & Hst & _ & Hre).
  exists row, db', (select_active_warnings (Some a) (Some m) db').
  unfold post_warnings, get_active_warnings, respond, getActiveWarnings.
  rewrite Hrun, run_pool_query, Hf'.
  split; [reflexivity |]. split; [reflexivity |].
  split; [| auto].
  unfold select_active_warnings. apply in_order_by_where.
  rewrite Htbl. split; [apply in_or_app; right; left; reflexivity |].
  rewrite active_warning_cond_holds. unfold spec_counts_toward, spec_is_active.
  rewrite Hra, Hrm, Hst, Ha, Hm, !strict_eq_refl, Hre. cbn [andb].
  assert (Hd : CURRENT_DATE db' = CURRENT_DATE db)
    by (unfold CURRENT_DATE; rewrite Hck; reflexivity).
  destruct (WarningData.warningType wd) as [k |]; [| reflexivity].
  destruct (WARNING_EXPIRATION k) as [d | | |] eqn:E; try reflexivity.
  rewrite Hd. apply Z.leb_le.
  destruct (WARNING_EXPIRATION_number k d E) as [(_ & ->) | (_ & ->)]; lia.
Qed.

Lemma post_warnings_then_get_active_witness :
  exists row db' rows,
    post_warnings (SampleX.new_warning (Some "Written")) SampleX.mixed =
      (Http.mk 200 (Http.WarningRecorded (id row)), db') /\
    get_active_warnings "agent@onq.global" Sample.QA db' =
      (Http.mk 200 (Http.Warnings rows), db') /\
    In row rows /\ id row = 5.
Proof.
  destruct (post_warnings_then_get_active (SampleX.new_warning (Some "Written"))
              SampleX.mixed "agent@onq.global" "QA")
    as (row & db' & rows & Hpost & Hget & Hin & Hid & _).
  - reflexivity.
  - apply new_warning_stored_as_sent; auto.
  - reflexivity.
  - reflexivity.
  - exists row, db', rows. repeat (split; [assumption |]). exact Hid.
Defined.
